(** * create_context_file.py: a shallow embedding and its verified properties

    The development follows the layout of the script
    [gemini-context-setup/create_context_file.py]:

    - [PyStr]    the [str] and [pathlib] operations the script calls;
    - [Re]       the fragment of Python's [re] the script's default patterns
                 live in, with its meaning;
    - [Fnmatch]  [fnmatch.fnmatch];
    - [Argparse] the option parser built in [main];
    - the world (file system, MIME table, clock, and what the interpreter
      makes of the patterns outside [Re]) and the five functions of the
      script, in source order;
    - the properties, one section per concern. *)

From Stdlib Require Import Ascii String List Bool Arith NArith Lia.
From Stdlib Require Import DecimalString OrdersEx.
From stdpp Require Import base list sorting strings gmap.

(* ===================================================================== *)
(** ** Python [str] and [pathlib] operations *)
(* ===================================================================== *)

(** A Python [str] is modelled by a [string] whose characters are the code
    points 0..255; comparison is code point by code point, as in Python. *)

Module PyStr.

Definition code (c : ascii) : nat := nat_of_ascii c.

(** [bool(s)]: a string is truthy when it is not empty. *)
Definition nonempty (s : string) : bool :=
  match s with EmptyString => false | String _ _ => true end.

(** [s.startswith(p)] *)
Definition startswith (s p : string) : bool := String.prefix p s.

Fixpoint rev_acc (s acc : string) : string :=
  match s with
  | EmptyString => acc
  | String c s' => rev_acc s' (String c acc)
  end.

Definition rev (s : string) : string := rev_acc s EmptyString.

(** [s.endswith(p)] *)
Definition endswith (s p : string) : bool := String.prefix (rev p) (rev s).

(** [sub in s] *)
Fixpoint contains (sub s : string) : bool :=
  String.prefix sub s ||
  match s with
  | EmptyString => false
  | String _ s' => contains sub s'
  end.

(** [c.lower()] on code points below 256: A-Z, and the Latin-1 capitals
    0xC0-0xDE except the multiplication sign 0xD7. *)
Definition lower_char (c : ascii) : ascii :=
  let n := code c in
  if ((65 <=? n) && (n <=? 90)) || ((192 <=? n) && (n <=? 222) && negb (n =? 215))
  then ascii_of_nat (n + 32) else c.

Fixpoint lower (s : string) : string :=
  match s with
  | EmptyString => EmptyString
  | String c s' => String (lower_char c) (lower s')
  end.

(** [c.isspace()] on code points below 256. *)
Definition isspace (c : ascii) : bool :=
  let n := code c in
  ((9 <=? n) && (n <=? 13)) || ((28 <=? n) && (n <=? 32)) || (n =? 133) || (n =? 160).

Fixpoint lstrip (s : string) : string :=
  match s with
  | EmptyString => EmptyString
  | String c s' => if isspace c then lstrip s' else s
  end.

(** [s.strip()] *)
Definition strip (s : string) : string := rev (lstrip (rev (lstrip s))).

Fixpoint drop (n : nat) (s : string) : string :=
  match n, s with
  | O, _ => s
  | S n', String _ s' => drop n' s'
  | S _, EmptyString => EmptyString
  end.

(** [s[:-1]] *)
Definition drop_last (s : string) : string :=
  String.substring 0 (String.length s - 1) s.

(** [s.replace(old, new)] for a non-empty [old]: the occurrences of [old]
    are replaced from left to right, without overlap.  [skip] counts the
    characters of an occurrence that are still to be dropped. *)
Fixpoint replace_from (old new s : string) (skip : nat) : string :=
  match s with
  | EmptyString => EmptyString
  | String c s' =>
      match skip with
      | S k => replace_from old new s' k
      | O =>
          if String.prefix old s
          then new +:+ replace_from old new s' (String.length old - 1)
          else String c (replace_from old new s' 0)
      end
  end.

(** With an empty [old], Python puts [new] before every character and at
    the end. *)
Fixpoint intersperse (new s : string) : string :=
  match s with
  | EmptyString => new
  | String c s' => new +:+ String c (intersperse new s')
  end.

Definition replace (s old new : string) : string :=
  match old with
  | EmptyString => intersperse new s
  | String _ _ => replace_from old new s 0
  end.

(** The part of [s] after its last ["/"]: [Path.name] of a normalised
    path, and [s.split('/')[-1]]. *)
Fixpoint after_last_slash_acc (s acc : string) : string :=
  match s with
  | EmptyString => rev acc
  | String c s' =>
      if Ascii.eqb c "/"%char then after_last_slash_acc s' EmptyString
      else after_last_slash_acc s' (String c acc)
  end.

Definition after_last_slash (s : string) : string :=
  after_last_slash_acc s EmptyString.

(** [s.rfind('.')] *)
Fixpoint rfind_dot (s : string) (i : nat) (found : option nat) : option nat :=
  match s with
  | EmptyString => found
  | String c s' => rfind_dot s' (S i) (if Ascii.eqb c "."%char then Some i else found)
  end.

(** [Path.name] *)
Definition name (p : string) : string := after_last_slash p.

(** [Path.suffix]: the final dotted component of the name, if the dot is
    neither the first nor the last character of the name. *)
Definition suffix (p : string) : string :=
  let n := name p in
  match rfind_dot n 0 None with
  | Some i =>
      if (0 <? i) && (i <? String.length n - 1) then drop i n else EmptyString
  | None => EmptyString
  end.

(** [p.relative_to(root)] on normalised absolute paths; [None] stands for
    the [ValueError] raised when [p] is not below [root]. *)
Definition relative_to (p root : string) : option string :=
  if String.eqb p root then Some "."%string
  else if String.eqb root "/" then
    if String.prefix "/" p then Some (drop 1 p) else None
  else if String.prefix (root +:+ "/") p
    then Some (drop (String.length root + 1) p)
    else None.

(** [x in [a, b, ...]] for strings *)
Definition mem (x : string) (l : list string) : bool :=
  existsb (String.eqb x) l.

(** [str(n)] for a non-negative integer *)
Definition of_N (n : N) : string := NilZero.string_of_uint (N.to_uint n).

(** ['=' * n] *)
Fixpoint repeat_char (c : ascii) (n : nat) : string :=
  match n with
  | O => EmptyString
  | S n' => String c (repeat_char c n')
  end.

End PyStr.

(* ===================================================================== *)
(** ** Results of calls that may raise *)
(* ===================================================================== *)

(** The exceptions that end a call of one of the script's functions. *)
Inductive exn : Type :=
  | ReError (pattern : string)   (* re.error: [pattern] does not compile *)
  | OSError (msg : string).      (* a failed system call; [msg] is [str(e)] *)

Inductive result (A : Type) : Type :=
  | Ok (a : A)
  | Raise (e : exn).

Arguments Ok {A} a.
Arguments Raise {A} e.

(** What a call to the environment gives: a value, or an exception.  Of an
    exception of the environment the script only ever uses the text
    [str(e)]. *)
Inductive answer (A : Type) : Type :=
  | Returns (a : A)
  | Fails (msg : string).

Arguments Returns {A} a.
Arguments Fails {A} msg.

(** Sequencing: an exception raised by the first computation ends the whole;
    written [x ← m; k] below. *)
#[global] Instance result_ret : MRet result := fun A a => Ok a.

#[global] Instance result_bind : MBind result := fun A B f m =>
  match m with
  | Ok a => f a
  | Raise e => Raise e
  end.

(* ===================================================================== *)
(** ** The fragment of Python's [re] used for exclude and include patterns *)
(* ===================================================================== *)

(** The patterns of the script are plain regular expressions such as
    [\.git] and [\.pyc$].  The module gives the meaning of the patterns
    written with literals, escaped punctuation, [.], [^], [$], the postfix
    operators [*], [+], [?], alternation and groups, and recognises the
    malformed patterns among them.  It says nothing about a pattern that
    uses anything else ([Outside]): what the interpreter does with such a
    pattern is left to the world the script runs in. *)

Module Re.

Inductive regex : Type :=
  | Eps
  | Chr (c : ascii)
  | Any                       (* [.]: any character but a newline *)
  | Bol                       (* [^]: start of the string *)
  | Eol                       (* [$]: end of the string, or before a final newline *)
  | Seq (r1 r2 : regex)
  | Alt (r1 r2 : regex)
  | Star (r : regex).

(** What reading a pattern gives. *)
Inductive parse (A : Type) : Type :=
  | Got (a : A)
  | Malformed                 (* [re.compile] raises [re.error] *)
  | Outside.                  (* not a pattern of this fragment *)

Arguments Got {A} a.
Arguments Malformed {A}.
Arguments Outside {A}.

Definition newline : ascii := "010"%char.

Definition is_alnum (c : ascii) : bool :=
  let n := nat_of_ascii c in
  ((48 <=? n) && (n <=? 57)) || ((65 <=? n) && (n <=? 90)) ||
  ((97 <=? n) && (n <=? 122)).

Definition is_postfix (c : ascii) : bool :=
  Ascii.eqb c "*"%char || Ascii.eqb c "+"%char || Ascii.eqb c "?"%char.

Definition is_assertion (r : regex) : bool :=
  match r with Bol | Eol => true | _ => false end.

Definition repeated (q : ascii) (a : regex) : regex :=
  if Ascii.eqb q "*"%char then Star a
  else if Ascii.eqb q "+"%char then Seq a (Star a)
  else Alt a Eps.

(** An atom followed by at most one postfix operator.  Python rejects an
    operator applied to [^] or [$] ("nothing to repeat") and an operator
    followed by [*] ("multiple repeat"); an operator followed by [?], [+] or
    a brace (lazy, possessive or counted repetition) is outside the
    fragment. *)
Definition postfix (a : regex) (s : list ascii) : parse (regex * list ascii) :=
  match s with
  | q :: s' =>
      if is_postfix q then
        if is_assertion a then Malformed
        else match s' with
             | q' :: _ =>
                 if Ascii.eqb q' "*"%char then Malformed
                 else if is_postfix q' || Ascii.eqb q' "{"%char then Outside
                 else Got (repeated q a, s')
             | [] => Got (repeated q a, s')
             end
      else if Ascii.eqb q "{"%char then Outside
      else Got (a, s)
  | [] => Got (a, s)
  end.

Fixpoint parse_alt (fuel : nat) (s : list ascii) : parse (regex * list ascii) :=
  match fuel with
  | O => Outside
  | S fuel =>
      match parse_seq fuel s with
      | Got (r1, c :: s') =>
          if Ascii.eqb c "|"%char then
            match parse_alt fuel s' with
            | Got (r2, s'') => Got (Alt r1 r2, s'')
            | Malformed => Malformed
            | Outside => Outside
            end
          else Got (r1, c :: s')
      | other => other
      end
  end
with parse_seq (fuel : nat) (s : list ascii) : parse (regex * list ascii) :=
  match fuel with
  | O => Outside
  | S fuel =>
      match s with
      | [] => Got (Eps, [])
      | c :: _ =>
          if Ascii.eqb c "|"%char || Ascii.eqb c ")"%char then Got (Eps, s)
          else
            match parse_atom fuel s with
            | Got (a, s1) =>
                match postfix a s1 with
                | Got (q, s2) =>
                    match parse_seq fuel s2 with
                    | Got (r, s3) => Got (Seq q r, s3)
                    | Malformed => Malformed
                    | Outside => Outside
                    end
                | Malformed => Malformed
                | Outside => Outside
                end
            | Malformed => Malformed
            | Outside => Outside
            end
      end
  end
with parse_atom (fuel : nat) (s : list ascii) : parse (regex * list ascii) :=
  match fuel with
  | O => Outside
  | S fuel =>
      match s with
      | [] => Outside
      | c :: s1 =>
          if Ascii.eqb c "("%char then
            match s1 with
            | q :: _ =>
                if Ascii.eqb q "?"%char then Outside        (* an extension group *)
                else
                  match parse_alt fuel s1 with
                  | Got (r, c' :: s2) =>
                      if Ascii.eqb c' ")"%char then Got (r, s2) else Outside
                  | Got (_, []) => Malformed                 (* missing parenthesis *)
                  | Malformed => Malformed
                  | Outside => Outside
                  end
            | [] => Malformed                                (* missing parenthesis *)
            end
          else if Ascii.eqb c "\"%char then
            match s1 with
            | e :: s2 => if is_alnum e then Outside else Got (Chr e, s2)
            | [] => Malformed                                (* bad escape *)
            end
          else if Ascii.eqb c "."%char then Got (Any, s1)
          else if Ascii.eqb c "^"%char then Got (Bol, s1)
          else if Ascii.eqb c "$"%char then Got (Eol, s1)
          else if is_postfix c then Malformed                (* nothing to repeat *)
          else if Ascii.eqb c "["%char || Ascii.eqb c "{"%char then Outside
          else Got (Chr c, s1)
      end
  end.

(** [re.compile(pattern)], for the patterns of the fragment. *)
Definition compile (pattern : string) : parse regex :=
  let cs := list_ascii_of_string pattern in
  match parse_alt (4 * length cs + 4) cs with
  | Got (r, []) => Got r
  | Got (_, _ :: _) => Malformed                             (* unbalanced parenthesis *)
  | Malformed => Malformed
  | Outside => Outside
  end.

(** Matching with a continuation.  [b] tells whether the position is the
    start of the subject, [s] is what is left of it.  An iteration of a
    starred expression has to consume at least one character. *)
Definition cont := bool -> list ascii -> bool.

Fixpoint star_loop (body : bool -> list ascii -> cont -> bool) (k : cont)
    (n : nat) (b : bool) (s : list ascii) : bool :=
  k b s ||
  match n with
  | O => false
  | S n' =>
      body b s (fun b' s' => (length s' <? length s) && star_loop body k n' b' s')
  end.

Fixpoint rmatch (r : regex) (b : bool) (s : list ascii) (k : cont) : bool :=
  match r with
  | Eps => k b s
  | Chr c =>
      match s with
      | x :: s' => Ascii.eqb x c && k false s'
      | [] => false
      end
  | Any =>
      match s with
      | x :: s' => negb (Ascii.eqb x newline) && k false s'
      | [] => false
      end
  | Bol => b && k b s
  | Eol =>
      match s with
      | [] => k b s
      | [x] => Ascii.eqb x newline && k b s
      | _ => false
      end
  | Seq r1 r2 => rmatch r1 b s (fun b' s' => rmatch r2 b' s' k)
  | Alt r1 r2 => rmatch r1 b s k || rmatch r2 b s k
  | Star r1 => star_loop (rmatch r1) k (length s) b s
  end.

Definition accept : cont := fun _ _ => true.

(** An unanchored search tries every start position, left to right. *)
Fixpoint search_from (r : regex) (b : bool) (s : list ascii) : bool :=
  rmatch r b s accept ||
  match s with
  | [] => false
  | _ :: s' => search_from r false s'
  end.

(** Whether [re.search] finds the expression in the subject. *)
Definition found (r : regex) (subject : string) : bool :=
  search_from r true (list_ascii_of_string subject).

(** A continuation [k'] carries [k] over the extension of the subject by
    [t]. *)
Definition carries (t : list ascii) (k k' : cont) : Prop :=
  forall b s, k b s = true -> k' b (s ++ t) = true.

(** The expression never looks at what follows a match: no [$]. *)
Fixpoint eol_free (r : regex) : bool :=
  match r with
  | Eol => false
  | Seq r1 r2 | Alt r1 r2 => eol_free r1 && eol_free r2
  | Star r1 => eol_free r1
  | _ => true
  end.

End Re.

(* ===================================================================== *)
(** ** [fnmatch.fnmatch] *)
(* ===================================================================== *)

(** Shell-style patterns on a POSIX system (no case folding): [*] matches any
    run of characters, ["/"] included, [?] one character, [[seq]] and
    [[!seq]] a character class; everything else stands for itself, and the
    whole name has to match. *)

Module Fnmatch.

Inductive item : Type :=
  | Single (c : ascii)
  | Range (lo hi : ascii).

Inductive token : Type :=
  | TStar
  | TQuestion
  | TClass (negated : bool) (items : list item)
  | TLit (c : ascii).

(** The text of a class up to its closing bracket, and what follows it;
    [None] when the bracket is never closed. *)
Fixpoint until_bracket (s : list ascii) : option (list ascii * list ascii) :=
  match s with
  | [] => None
  | c :: s' =>
      if Ascii.eqb c "]"%char then Some ([], s')
      else match until_bracket s' with
           | Some (stuff, rest) => Some (c :: stuff, rest)
           | None => None
           end
  end.

(** A bracket right after [[] or [[!] belongs to the class. *)
Definition class_text (s : list ascii) : option (list ascii * list ascii) :=
  match s with
  | c :: s' =>
      if Ascii.eqb c "]"%char then
        match until_bracket s' with
        | Some (stuff, rest) => Some (c :: stuff, rest)
        | None => None
        end
      else until_bracket s
  | [] => None
  end.

(** A hyphen between two characters makes a range; a range whose ends are
    in the wrong order is empty. *)
Fixpoint items_of (fuel : nat) (s : list ascii) : list item :=
  match fuel with
  | O => []
  | S fuel =>
      match s with
      | lo :: h :: hi :: s' =>
          if Ascii.eqb h "-"%char then Range lo hi :: items_of fuel s'
          else Single lo :: items_of fuel (h :: hi :: s')
      | c :: s' => Single c :: items_of fuel s'
      | [] => []
      end
  end.

Fixpoint tokens (fuel : nat) (s : list ascii) : list token :=
  match fuel with
  | O => []
  | S fuel =>
      match s with
      | [] => []
      | c :: s' =>
          if Ascii.eqb c "*"%char then TStar :: tokens fuel s'
          else if Ascii.eqb c "?"%char then TQuestion :: tokens fuel s'
          else if Ascii.eqb c "["%char then
            let (negated, body) :=
              match s' with
              | x :: s'' => if Ascii.eqb x "!"%char then (true, s'') else (false, s')
              | [] => (false, s')
              end in
            match class_text body with
            | Some (stuff, rest) =>
                TClass negated (items_of (length stuff) stuff) :: tokens fuel rest
            | None => TLit c :: tokens fuel s'
            end
          else TLit c :: tokens fuel s'
      end
  end.

Definition in_item (c : ascii) (i : item) : bool :=
  match i with
  | Single x => Ascii.eqb c x
  | Range lo hi =>
      (nat_of_ascii lo <=? nat_of_ascii c) && (nat_of_ascii c <=? nat_of_ascii hi)
  end.

Fixpoint tmatch (p : list token) (s : list ascii) : bool :=
  match p with
  | [] => match s with [] => true | _ :: _ => false end
  | TStar :: p' =>
      (fix star (s : list ascii) : bool :=
         tmatch p' s ||
         match s with
         | [] => false
         | _ :: s' => star s'
         end) s
  | TQuestion :: p' =>
      match s with
      | _ :: s' => tmatch p' s'
      | [] => false
      end
  | TClass negated items :: p' =>
      match s with
      | c :: s' => xorb negated (existsb (in_item c) items) && tmatch p' s'
      | [] => false
      end
  | TLit x :: p' =>
      match s with
      | c :: s' => Ascii.eqb c x && tmatch p' s'
      | [] => false
      end
  end.

(** [fnmatch.fnmatch(name, pat)] *)
Definition fnmatch (name pat : string) : bool :=
  let ps := list_ascii_of_string pat in
  tmatch (tokens (length ps) ps) (list_ascii_of_string name).

End Fnmatch.

(* ===================================================================== *)
(** ** The option parser of [main] *)
(* ===================================================================== *)

(** [argparse] keeps the [default=[...]] list of [--exclude] as one list
    object and hands that very object to the namespace; the [append] action
    copies the current list before it appends.  List objects therefore live
    in a store, and the namespace holds references.  The command line is
    taken after tokenisation, as the sequence of recognised options. *)

Module Argparse.

Inductive flag : Type :=
  | Directory (v : string)     (* -d / --directory *)
  | Output (v : string)        (* -o / --output *)
  | Exclude (v : string)       (* -e / --exclude *)
  | Include (v : string).      (* -i / --include *)

Abbreviation loc := nat (only parsing).
Abbreviation store := (gmap nat (list string)) (only parsing).

Record namespace : Type := {
  directory : string;
  output : string;
  exclude : option loc;
  include : option loc
}.

(** The [default=] list of the [--exclude] option, lines 321-338. *)
Definition default_exclude : list string :=
  [ "\.git"; "__pycache__"; "\.pyc$"; "\.DS_Store$"; "node_modules";
    "\.venv"; "venv"; "\.env"; "\.idea"; "\.vscode"; "dist"; "build";
    "coverage"; "\.coverage"; "\.pytest_cache"; "\.tox" ]%string.

Definition alloc (h : store) (l : list string) : loc * store :=
  let a := fresh (dom h) in (a, <[a := l]> h).

(** [list(items)] for the current value of the attribute; a missing or
    [None] attribute gives the empty list. *)
Definition copy_items (h : store) (items : option loc) : list string :=
  match items with
  | Some a => default [] (h !! a)
  | None => []
  end.

(** [action='append']: copy, append, rebind the attribute. *)
Definition append_action (h : store) (items : option loc) (v : string)
    : loc * store :=
  alloc h (copy_items h items ++ [v]).

Definition take_flag (st : namespace * store) (f : flag) : namespace * store :=
  let (ns, h) := st in
  match f with
  | Directory v =>
      ({| directory := v; output := output ns;
          exclude := exclude ns; include := include ns |}, h)
  | Output v =>
      ({| directory := directory ns; output := v;
          exclude := exclude ns; include := include ns |}, h)
  | Exclude v =>
      let (a, h') := append_action h (exclude ns) v in
      ({| directory := directory ns; output := output ns;
          exclude := Some a; include := include ns |}, h')
  | Include v =>
      let (a, h') := append_action h (include ns) v in
      ({| directory := directory ns; output := output ns;
          exclude := exclude ns; include := Some a |}, h')
  end.

(** [parser.parse_args()]: the namespace starts from the defaults, the
    exclude attribute being the parser's own default list [dflt]. *)
Definition parse_args (h : store) (dflt : loc) (argv : list flag)
    : namespace * store :=
  fold_left take_flag argv
    ({| directory := "."; output := "gemini_context.txt";
        exclude := Some dflt; include := None |}, h).

(** Building the parser allocates the default list. *)
Definition make_parser (h : store) : loc * store := alloc h default_exclude.

(** The value of a list attribute. *)
Definition deref (h : store) (a : option loc) : option (list string) :=
  match a with
  | Some l => h !! l
  | None => None
  end.

(** What one option adds to the exclude list. *)
Definition flag_excludes (f : flag) : list string :=
  match f with
  | Exclude v => [v]
  | _ => []
  end.

(** The patterns given with [-e] on the command line, in order. *)
Fixpoint supplied_excludes (argv : list flag) : list string :=
  match argv with
  | [] => []
  | Exclude v :: rest => v :: supplied_excludes rest
  | _ :: rest => supplied_excludes rest
  end.

(** [args.exclude] of a fresh process started with [argv]. *)
Definition effective_excludes (argv : list flag) : list string :=
  let (dflt, h) := make_parser ∅ in
  let (ns, h') := parse_args h dflt argv in
  default [] (deref h' (exclude ns)).

End Argparse.

(* ===================================================================== *)
(** ** The world the script runs in *)
(* ===================================================================== *)

(** [os.stat_result], with the modification time as
    [datetime.fromtimestamp(st_mtime).isoformat()] renders it. *)
Record stat_result : Type := {
  st_size : N;
  st_mtime : string
}.

(** What the script meets at the path of [.context-ignore].  A failure
    carries the text of its exception. *)
Inductive ignore_source : Type :=
  | Absent                       (* [exists()] is false *)
  | Inaccessible (msg : string)  (* [exists()] itself raises, line 109 *)
  | Unopenable (msg : string)    (* [open] raises *)
  | Lines (ls : list string) (failure : option string).
      (* iterating the file yields [ls]; then it ends ([None]) or a read
         raises *)

(** Every answer of the environment; paths are the strings [str(path)]
    gives.  [file_path.stat()] is called at two moments of a run, in the
    inclusion filter (line 194) and when the metadata are collected
    (line 29), and the file system may have changed in between: the two
    calls have an answer each.  [re_extension] is what [re.compile] makes of
    a pattern the module [Re] does not cover: [None] when it raises
    [re.error], the test [compiled.search(subject) is not None]
    otherwise. *)
Record world : Type := {
  cwd : string;                                  (* str(Path.cwd()) *)
  now : string;                                  (* datetime.now().isoformat() *)
  resolve : string -> string;                    (* str(Path(d).resolve()) *)
  guess_type : string -> option string;          (* mimetypes.guess_type(p)[0] *)
  re_extension : string -> option (string -> bool);
  stat_filter : string -> answer stat_result;    (* Path.stat(), line 194 *)
  stat_info : string -> answer stat_result;      (* Path.stat(), line 29 *)
  read_chunk : string -> option (list ascii);    (* open(p, 'rb') ... read(1024); None: raises *)
  read_text : string -> answer string;           (* open(p, 'r', errors='replace') ... read() *)
  regular_files : string -> list string;         (* root.glob('**/*') kept when is_file() *)
  ignore_file : string -> ignore_source;         (* the file at that path *)
  open_output : string -> answer unit            (* open(output_file, 'w') *)
}.

Definition nl : string := String "010"%char EmptyString.

(** [root / name] *)
Definition joinpath (root name : string) : string :=
  if String.eqb root "/" then root +:+ name else root +:+ "/" +:+ name.

(* ===================================================================== *)
(** ** get_file_info (lines 19-62) *)
(* ===================================================================== *)

Record file_info : Type := {
  path : string;
  relative_path : string;
  size_bytes : N;
  last_modified : string;
  type : string;
  extension : string;
  filename : string
}.

(** Lines 31-52: the type tag. *)
Definition file_type (w : world) (file_path : string) : string :=
  match guess_type w file_path with
  | None =>
      if PyStr.mem (PyStr.suffix file_path)
           [".py"; ".js"; ".ts"; ".java"; ".cpp"; ".c"; ".go"; ".rs"; ".php"; ".rb"]
      then "code"
      else if PyStr.mem (PyStr.suffix file_path) [".md"; ".txt"; ".rst"; ".adoc"]
      then "documentation"
      else if PyStr.mem (PyStr.lower (PyStr.name file_path))
                ["readme"; "license"; "contributing"; "changelog"; "authors"]
      then "documentation"
      else if PyStr.contains "adr" (PyStr.lower file_path)
              && String.eqb (PyStr.suffix file_path) ".md"
      then "architecture_decision"
      else "unknown"
  | Some mime_type =>
      if PyStr.startswith mime_type "text" then
        if PyStr.contains "markdown" mime_type then "documentation"
        else if PyStr.mem (PyStr.after_last_slash mime_type)
                  ["x-python"; "javascript"; "x-java"; "x-c"]
        then "code" else "text"
      else "binary"
  end.

(** The only call that can fail is [stat]. *)
Definition get_file_info (w : world) (file_path : string) : answer file_info :=
  match stat_info w file_path with
  | Fails msg => Fails msg
  | Returns stats =>
      Returns {| path := file_path;
                 relative_path := PyStr.replace file_path (cwd w +:+ "/") "";
                 size_bytes := st_size stats;
                 last_modified := st_mtime stats;
                 type := file_type w file_path;
                 extension := PyStr.suffix file_path;
                 filename := PyStr.name file_path |}
  end.

(* ===================================================================== *)
(** ** is_binary_file (lines 65-93) *)
(* ===================================================================== *)

Definition cont_byte (c : ascii) : bool :=
  (128 <=? nat_of_ascii c) && (nat_of_ascii c <=? 191).

Definition in_range (lo hi : nat) (c : ascii) : bool :=
  (lo <=? nat_of_ascii c) && (nat_of_ascii c <=? hi).

(** [chunk.decode('utf-8')] succeeds: well-formed UTF-8, shortest form, no
    surrogates, nothing above U+10FFFF, no sequence cut short. *)
Fixpoint utf8_valid (bs : list ascii) : bool :=
  match bs with
  | [] => true
  | b0 :: r0 =>
      if nat_of_ascii b0 <=? 127 then utf8_valid r0
      else match r0 with
      | [] => false
      | b1 :: r1 =>
          if in_range 194 223 b0 then cont_byte b1 && utf8_valid r1
          else match r1 with
          | [] => false
          | b2 :: r2 =>
              if in_range 224 239 b0 then
                (if nat_of_ascii b0 =? 224 then in_range 160 191 b1
                 else if nat_of_ascii b0 =? 237 then in_range 128 159 b1
                 else cont_byte b1)
                && cont_byte b2 && utf8_valid r2
              else match r2 with
              | [] => false
              | b3 :: r3 =>
                  in_range 240 244 b0
                  && (if nat_of_ascii b0 =? 240 then in_range 144 191 b1
                      else if nat_of_ascii b0 =? 244 then in_range 128 143 b1
                      else cont_byte b1)
                  && cont_byte b2 && cont_byte b3 && utf8_valid r3
              end
          end
      end
  end.

Definition is_binary_file (w : world) (file_path : string) : bool :=
  let declared_binary :=
    match guess_type w file_path with
    | Some mime_type =>
        PyStr.nonempty mime_type && negb (PyStr.startswith mime_type "text")
    | None => false
    end in
  if declared_binary then true
  else
    match read_chunk w file_path with
    | None => true
    | Some chunk =>
        if existsb (Ascii.eqb "000"%char) chunk then true
        else negb (utf8_valid chunk)
    end.

(* ===================================================================== *)
(** ** load_context_ignore (lines 96-121) *)
(* ===================================================================== *)

(** The loop of lines 113-117, [ignore_patterns] being the list built so
    far. *)
Fixpoint read_patterns (ignore_patterns : list string) (ls : list string)
    : list string :=
  match ls with
  | [] => ignore_patterns
  | line :: rest =>
      let line := PyStr.strip line in
      if PyStr.nonempty line && negb (PyStr.startswith line "#")
      then read_patterns (ignore_patterns ++ [line]) rest
      else read_patterns ignore_patterns rest
  end.

(** The patterns returned, and the lines printed.  The existence test of
    line 109 is outside the [try]: an exception it raises leaves the
    function; an exception of [open] or of a read is printed with its text
    and ends the reading. *)
Definition load_context_ignore (w : world) (root_dir : string)
    : result (list string * list string) :=
  let ignore_file_path := joinpath root_dir ".context-ignore" in
  match ignore_file w ignore_file_path with
  | Absent => Ok ([], [])
  | Inaccessible msg => Raise (OSError msg)
  | Unopenable msg =>
      Ok ([], ["Found .context-ignore file at " +:+ ignore_file_path;
               "Error reading .context-ignore file: " +:+ msg])
  | Lines ls failure =>
      Ok (read_patterns [] ls,
          ("Found .context-ignore file at " +:+ ignore_file_path) ::
          match failure with
          | Some msg => ["Error reading .context-ignore file: " +:+ msg]
          | None => []
          end)
  end.

(* ===================================================================== *)
(** ** is_ignored_by_patterns (lines 124-161) *)
(* ===================================================================== *)

(** The loop of lines 147-159. *)
Fixpoint matches_any_pattern (rel_path_str : string) (patterns : list string)
    : bool :=
  match patterns with
  | [] => false
  | pattern :: rest =>
      if PyStr.endswith pattern "/" then
        let dir_pattern := PyStr.drop_last pattern in
        if String.eqb rel_path_str dir_pattern
           || PyStr.startswith rel_path_str (dir_pattern +:+ "/")
        then true
        else matches_any_pattern rel_path_str rest
      else if Fnmatch.fnmatch rel_path_str pattern then true
      else if String.eqb rel_path_str pattern then true
      else matches_any_pattern rel_path_str rest
  end.

Definition is_ignored_by_patterns (file_path root_dir : string)
    (ignore_patterns : list string) : bool :=
  match ignore_patterns with
  | [] => false
  | _ :: _ =>
      let rel_path_str :=
        match PyStr.relative_to file_path root_dir with
        | Some rel_path => rel_path
        | None => file_path
        end in
      matches_any_pattern rel_path_str ignore_patterns
  end.

(* ===================================================================== *)
(** ** should_include_file (lines 164-197) *)
(* ===================================================================== *)

(** [re.compile(pattern)], as [re.search] calls it: the expression of the
    pattern for the patterns of [Re], the answer of the interpreter for the
    others. *)
Definition re_compile (w : world) (pattern : string) : result (string -> bool) :=
  match Re.compile pattern with
  | Re.Got r => Ok (Re.found r)
  | Re.Malformed => Raise (ReError pattern)
  | Re.Outside =>
      match re_extension w pattern with
      | Some test => Ok test
      | None => Raise (ReError pattern)
      end
  end.

(** [bool(re.search(pattern, subject))] *)
Definition re_search (w : world) (pattern subject : string) : result bool :=
  test ← re_compile w pattern;
  Ok ((test : string -> bool) subject).

(** [for pattern in patterns: if re.search(pattern, subject): ...]: whether
    the body of the [if] is reached.  A pattern that does not compile raises
    when its turn comes. *)
Fixpoint search_any (w : world) (patterns : list string) (subject : string)
    : result bool :=
  match patterns with
  | [] => Ok false
  | pattern :: rest =>
      found ← re_search w pattern subject;
      if (found : bool) then Ok true else search_any w rest subject
  end.

Definition should_include_file (w : world) (file_path root_dir : string)
    (exclude_patterns ignore_patterns : list string) : result bool :=
  let rel_path_str := file_path in
  excluded ← search_any w exclude_patterns rel_path_str;
  if (excluded : bool) then Ok false
  else if is_ignored_by_patterns file_path root_dir ignore_patterns then Ok false
  else if is_binary_file w file_path then Ok false
  else
    match stat_filter w file_path with
    | Fails msg => Raise (OSError msg)
    | Returns stats => if (1000000 <? st_size stats)%N then Ok false else Ok true
    end.

(* ===================================================================== *)
(** ** create_context_file (lines 200-297) *)
(* ===================================================================== *)

(** The order of [sorted(all_files, key=lambda x: str(x))]: strings compared
    code point by code point.  A path is determined by its string, so the
    sorted list is the one ordered arrangement of the paths. *)
Definition str_le (a b : string) : Prop := String_as_OT.compare a b <> Gt.
Definition str_lt (a b : string) : Prop := String_as_OT.compare a b = Lt.

#[global] Instance str_le_dec : RelDecision str_le.
Proof. intros a b. unfold str_le. destruct (String_as_OT.compare a b); [left|left|right]; congruence. Defined.

Definition sorted (files : list string) : list string := merge_sort str_le files.

(** What a run has written and counted so far. *)
Record run_state : Type := {
  out : list string;           (* the arguments of out_file.write, in order *)
  printed : list string;       (* the arguments of print, in order *)
  processed_files : N;
  skipped_files : N;
  ignored_files : N;
  total_size : N
}.

Definition write (st : run_state) (chunks : list string) : run_state :=
  {| out := out st ++ chunks; printed := printed st;
     processed_files := processed_files st; skipped_files := skipped_files st;
     ignored_files := ignored_files st; total_size := total_size st |}.

Definition print (st : run_state) (lines : list string) : run_state :=
  {| out := out st; printed := printed st ++ lines;
     processed_files := processed_files st; skipped_files := skipped_files st;
     ignored_files := ignored_files st; total_size := total_size st |}.

Definition count_processed (st : run_state) (size : N) : run_state :=
  {| out := out st; printed := printed st;
     processed_files := processed_files st + 1; skipped_files := skipped_files st;
     ignored_files := ignored_files st; total_size := total_size st + size |}.

Definition count_skipped (st : run_state) : run_state :=
  {| out := out st; printed := printed st;
     processed_files := processed_files st; skipped_files := skipped_files st + 1;
     ignored_files := ignored_files st; total_size := total_size st |}.

Definition count_ignored (st : run_state) : run_state :=
  {| out := out st; printed := printed st;
     processed_files := processed_files st; skipped_files := skipped_files st;
     ignored_files := ignored_files st + 1; total_size := total_size st |}.

(** A run either returns or is ended by an exception; in both cases the
    output file is closed with what was written. *)
Inductive outcome : Type :=
  | Completed (st : run_state)
  | Aborted (e : exn) (st : run_state).

Definition final (o : outcome) : run_state :=
  match o with Completed st | Aborted _ st => st end.

Definition separator : string := PyStr.repeat_char "="%char 80.

(** Lines 224-226. *)
Definition header (w : world) (root_dir : string) : list string :=
  [ "# Codebase Context File for Gemini 2.5 Pro" +:+ nl +:+ nl;
    "Generated on: " +:+ now w +:+ nl;
    "Root directory: " +:+ root_dir +:+ nl +:+ nl ].

(** Lines 261-266. *)
Definition metadata_block (file_info : file_info) : list string :=
  [ nl +:+ nl +:+ separator +:+ nl;
    "FILE: " +:+ relative_path file_info +:+ nl;
    "TYPE: " +:+ type file_info +:+ nl;
    "SIZE: " +:+ PyStr.of_N (size_bytes file_info) +:+ " bytes" +:+ nl;
    "LAST MODIFIED: " +:+ last_modified file_info +:+ nl;
    separator +:+ nl +:+ nl ].

(** Lines 285-291. *)
Definition summary_block (st : run_state) : list string :=
  [ nl +:+ nl +:+ separator +:+ nl;
    "SUMMARY" +:+ nl;
    "Files processed: " +:+ PyStr.of_N (processed_files st) +:+ nl;
    "Files ignored by .context-ignore: " +:+ PyStr.of_N (ignored_files st) +:+ nl;
    "Files skipped for other reasons: " +:+ PyStr.of_N (skipped_files st) +:+ nl;
    "Total size: " +:+ PyStr.of_N (total_size st) +:+ " bytes" +:+ nl;
    separator +:+ nl ].

(** Lines 293-297. *)
Definition closing_lines (output_file : string) (st : run_state) : list string :=
  [ "Context file created at: " +:+ output_file;
    "Files processed: " +:+ PyStr.of_N (processed_files st);
    "Files ignored by .context-ignore: " +:+ PyStr.of_N (ignored_files st);
    "Files skipped for other reasons: " +:+ PyStr.of_N (skipped_files st);
    "Total size: " +:+ PyStr.of_N (total_size st) +:+ " bytes" ].

(** Lines 239-247: the files matching at least one include pattern, in the
    order of [all_files]. *)
Fixpoint filter_included (w : world) (include_patterns : list string)
    (all_files : list string) : result (list string) :=
  match all_files with
  | [] => Ok []
  | file_path :: rest =>
      found ← search_any w include_patterns file_path;
      filtered_files ← filter_included w include_patterns rest;
      Ok (if (found : bool) then file_path :: filtered_files else filtered_files)
  end.

(** Lines 238-247; [if include_patterns:] is false for [None] and for the
    empty list. *)
Definition candidates (w : world) (include_patterns : option (list string))
    (all_files : list string) : result (list string) :=
  match include_patterns with
  | Some (pattern :: rest) => filter_included w (pattern :: rest) all_files
  | _ => Ok all_files
  end.

(** Lines 257-277: the [try] block and its handler. *)
Definition emit_file (w : world) (st : run_state) (file_path : string) : run_state :=
  match get_file_info w file_path with
  | Fails msg =>
      count_skipped
        (print st ["Error processing file " +:+ file_path +:+ ": " +:+ msg])
  | Returns file_info =>
      let st := write st (metadata_block file_info) in
      match read_text w file_path with
      | Fails msg =>
          count_skipped
            (print st ["Error processing file " +:+ file_path +:+ ": " +:+ msg])
      | Returns content =>
          count_processed (write st [content]) (size_bytes file_info)
      end
  end.

(** Lines 251-282: the body of the loop for one file. *)
Definition process_file (w : world) (root_dir output_file : string)
    (exclude_patterns ignore_patterns : list string)
    (st : run_state) (file_path : string) : result run_state :=
  if String.eqb file_path output_file then Ok (count_skipped st)
  else
    included ← should_include_file w file_path root_dir exclude_patterns ignore_patterns;
    if (included : bool) then Ok (emit_file w st file_path)
    else if is_ignored_by_patterns file_path root_dir ignore_patterns
      then Ok (count_ignored st)
      else Ok (count_skipped st).

(** Lines 250-282: the loop. *)
Fixpoint process_files (w : world) (root_dir output_file : string)
    (exclude_patterns ignore_patterns : list string)
    (st : run_state) (files : list string) : outcome :=
  match files with
  | [] => Completed st
  | file_path :: rest =>
      match process_file w root_dir output_file exclude_patterns ignore_patterns
              st file_path with
      | Ok st' =>
          process_files w root_dir output_file exclude_patterns ignore_patterns st' rest
      | Raise e => Aborted e st
      end
  end.

Definition initial_state (lines : list string) : run_state :=
  {| out := []; printed := lines;
     processed_files := 0; skipped_files := 0; ignored_files := 0; total_size := 0 |}.

(** Lines 215-220, with the two lines [load_context_ignore] may print. *)
Definition opening_lines (root_dir : string) (loaded : list string * list string)
    : list string :=
  ["Scanning directory: " +:+ root_dir] ++ loaded.2 ++
  match loaded.1 with
  | [] => []
  | _ :: _ =>
      ["Loaded " +:+ PyStr.of_N (N.of_nat (length loaded.1))
       +:+ " patterns from .context-ignore"]
  end.

(** An exception of [load_context_ignore] or of the [open] of line 222
    ends the run before anything is written. *)
Definition create_context_file (w : world) (root_dir output_file : string)
    (exclude_patterns : list string) (include_patterns : option (list string))
    : outcome :=
  match load_context_ignore w root_dir with
  | Raise e => Aborted e (initial_state ["Scanning directory: " +:+ root_dir])
  | Ok loaded =>
      let ignore_patterns := loaded.1 in
      let st := initial_state (opening_lines root_dir loaded) in
      match open_output w output_file with
      | Fails msg => Aborted (OSError msg) st
      | Returns _ =>
          let st := write st (header w root_dir) in
          let all_files := regular_files w root_dir in
          match candidates w include_patterns all_files with
          | Raise e => Aborted e st
          | Ok all_files =>
              match process_files w root_dir output_file exclude_patterns
                      ignore_patterns st (sorted all_files) with
              | Aborted e st' => Aborted e st'
              | Completed st' =>
                  let st' := write st' (summary_block st') in
                  Completed (print st' (closing_lines output_file st'))
              end
          end
      end
  end.

(* ===================================================================== *)
(** ** main (lines 300-356) *)
(* ===================================================================== *)

Definition main (w : world) (argv : list Argparse.flag) : outcome :=
  let (dflt, h) := Argparse.make_parser ∅ in
  let (args, h') := Argparse.parse_args h dflt argv in
  let root_dir := resolve w (Argparse.directory args) in
  create_context_file w root_dir (Argparse.output args)
    (default [] (Argparse.deref h' (Argparse.exclude args)))
    (Argparse.deref h' (Argparse.include args)).

(* ===================================================================== *)
(** ** Small worlds for the examples *)
(* ===================================================================== *)

Module Sample.

(** The MIME types of a stock Python 3 table for a few extensions. *)
Definition mime (p : string) : option string :=
  let e := PyStr.suffix p in
  if String.eqb e ".py" then Some "text/x-python"
  else if String.eqb e ".txt" then Some "text/plain"
  else if String.eqb e ".md" then Some "text/markdown"
  else if String.eqb e ".png" then Some "image/png"
  else None.

Fixpoint content_of (files : list (string * string)) (p : string) : option string :=
  match files with
  | [] => None
  | (q, c) :: rest => if String.eqb p q then Some c else content_of rest p
  end.

(** [str(e)] of the [FileNotFoundError] for a path. *)
Definition no_such_file (p : string) : string :=
  "[Errno 2] No such file or directory: '" +:+ p +:+ "'".

Definition stat_of (files : list (string * string)) (p : string) : answer stat_result :=
  match content_of files p with
  | Some c => Returns {| st_size := N.of_nat (String.length c);
                         st_mtime := "2024-05-01T12:00:00" |}
  | None => Fails (no_such_file p)
  end.

(** A tree given by its regular files, in the order the file system
    enumerates them, each with its content.  The examples run on these
    trees use patterns of [Re] only, so [re_extension] is never asked. *)
Definition tree (dir clock : string) (files : list (string * string))
    (ignore : ignore_source) : world :=
  {| cwd := dir;
     now := clock;
     resolve := fun d => if String.eqb d "." then dir else d;
     guess_type := mime;
     re_extension := fun _ => None;
     stat_filter := stat_of files;
     stat_info := stat_of files;
     read_chunk := fun p =>
       match content_of files p with
       | Some c => Some (firstn 1024 (list_ascii_of_string c))
       | None => None
       end;
     read_text := fun p =>
       match content_of files p with
       | Some c => Returns c
       | None => Fails (no_such_file p)
       end;
     regular_files := fun root =>
       List.filter (fun p => PyStr.startswith p (joinpath root "")) (map fst files);
     ignore_file := fun p =>
       if PyStr.endswith p "/.context-ignore" then ignore else Absent;
     open_output := fun _ => Returns tt |}.

(** The same tree when [gone] is removed between the binary probe and the
    size check of the filter. *)
Definition vanishing (w : world) (gone : string) : world :=
  {| cwd := cwd w; now := now w; resolve := resolve w;
     guess_type := guess_type w; re_extension := re_extension w;
     stat_filter := fun p =>
       if String.eqb p gone then Fails (no_such_file p) else stat_filter w p;
     stat_info := fun p =>
       if String.eqb p gone then Fails (no_such_file p) else stat_info w p;
     read_chunk := read_chunk w;
     read_text := fun p =>
       if String.eqb p gone then Fails (no_such_file p) else read_text w p;
     regular_files := regular_files w; ignore_file := ignore_file w;
     open_output := open_output w |}.

(** The same tree when [gone] is removed after the filter has accepted it,
    before its metadata are collected. *)
Definition removed (w : world) (gone : string) : world :=
  {| cwd := cwd w; now := now w; resolve := resolve w;
     guess_type := guess_type w; re_extension := re_extension w;
     stat_filter := stat_filter w;
     stat_info := fun p =>
       if String.eqb p gone then Fails (no_such_file p) else stat_info w p;
     read_chunk := read_chunk w;
     read_text := fun p =>
       if String.eqb p gone then Fails (no_such_file p) else read_text w p;
     regular_files := regular_files w; ignore_file := ignore_file w;
     open_output := open_output w |}.

Definition two_files : list (string * string) :=
  [ ("/proj/b.md", "# notes"); ("/proj/a.py", "print(1)") ]%string.

Definition git_config : list (string * string) :=
  [ ("/proj/.git/config", "[core]") ]%string.

(** A tree whose ignore file names the [.git] directory. *)
Definition git_ignored : world :=
  tree "/proj" "T0"
    [ ("/proj/.git/config", "[core]"); ("/proj/.context-ignore", ".git/" +:+ nl) ]%string
    (Lines [".git/" +:+ nl] None).

(** The same tree at another time, its files enumerated in the opposite
    order. *)
Definition later (w : world) (clock : string) : world :=
  {| cwd := cwd w; now := clock; resolve := resolve w;
     guess_type := guess_type w; re_extension := re_extension w;
     stat_filter := stat_filter w; stat_info := stat_info w;
     read_chunk := read_chunk w; read_text := read_text w;
     regular_files := fun root => rev (regular_files w root);
     ignore_file := ignore_file w; open_output := open_output w |}.

(** The same tree when reading the text of [damaged] fails after its first
    block was read. *)
Definition unreadable (w : world) (damaged : string) : world :=
  {| cwd := cwd w; now := now w; resolve := resolve w;
     guess_type := guess_type w; re_extension := re_extension w;
     stat_filter := stat_filter w; stat_info := stat_info w;
     read_chunk := read_chunk w;
     read_text := fun p =>
       if String.eqb p damaged then Fails "[Errno 5] Input/output error"
       else read_text w p;
     regular_files := regular_files w; ignore_file := ignore_file w;
     open_output := open_output w |}.

End Sample.

(* ===================================================================== *)
(** ** Vocabulary of the properties *)
(* ===================================================================== *)

(** The number of files a run has accounted for. *)
Definition counted (st : run_state) : N :=
  (processed_files st + ignored_files st + skipped_files st)%N.

(** Exactly one of the three counters went up, by one. *)
Inductive bumps_one (st st' : run_state) : Prop :=
  | bump_processed :
      processed_files st' = (processed_files st + 1)%N ->
      ignored_files st' = ignored_files st ->
      skipped_files st' = skipped_files st -> bumps_one st st'
  | bump_ignored :
      processed_files st' = processed_files st ->
      ignored_files st' = (ignored_files st + 1)%N ->
      skipped_files st' = skipped_files st -> bumps_one st st'
  | bump_skipped :
      processed_files st' = processed_files st ->
      ignored_files st' = ignored_files st ->
      skipped_files st' = (skipped_files st + 1)%N -> bumps_one st st'.

(** What the loop body decides for a file before it touches the state. *)
Inductive verdict : Type :=
  | Emit                       (* enter the [try] block *)
  | CountIgnored
  | CountSkipped.

Definition verdict_of (w : world) (root_dir output_file : string)
    (exclude_patterns ignore_patterns : list string) (file_path : string)
    : result verdict :=
  if String.eqb file_path output_file then Ok CountSkipped
  else
    included ← should_include_file w file_path root_dir exclude_patterns ignore_patterns;
    Ok (if (included : bool) then Emit
        else if is_ignored_by_patterns file_path root_dir ignore_patterns
        then CountIgnored else CountSkipped).

Definition apply_verdict (w : world) (file_path : string) (v : verdict)
    (st : run_state) : run_state :=
  match v with
  | Emit => emit_file w st file_path
  | CountIgnored => count_ignored st
  | CountSkipped => count_skipped st
  end.

(** What the [try] block writes for a file. *)
Definition file_writes (w : world) (file_path : string) : list string :=
  match get_file_info w file_path with
  | Fails _ => []
  | Returns file_info =>
      metadata_block file_info ++
      match read_text w file_path with
      | Fails _ => []
      | Returns content => [content]
      end
  end.

(** The file gets a metadata block in the output. *)
Definition has_block (w : world) (root_dir output_file : string)
    (exclude_patterns ignore_patterns : list string) (file_path : string) : bool :=
  match verdict_of w root_dir output_file exclude_patterns ignore_patterns file_path,
        get_file_info w file_path with
  | Ok Emit, Returns _ => true
  | _, _ => false
  end.

(** The patterns given with [-i] on the command line, in order. *)
Fixpoint supplied_includes (argv : list Argparse.flag) : list string :=
  match argv with
  | [] => []
  | Argparse.Include v :: rest => v :: supplied_includes rest
  | _ :: rest => supplied_includes rest
  end.

(** The value of [-d] and of [-o]: the last one given, [cur] without one. *)
Fixpoint last_directory (cur : string) (argv : list Argparse.flag) : string :=
  match argv with
  | [] => cur
  | Argparse.Directory v :: rest => last_directory v rest
  | _ :: rest => last_directory cur rest
  end.

Fixpoint last_output (cur : string) (argv : list Argparse.flag) : string :=
  match argv with
  | [] => cur
  | Argparse.Output v :: rest => last_output v rest
  | _ :: rest => last_output cur rest
  end.

(** A list attribute after more values were appended to it. *)
Definition add_values (attr : option (list string)) (vs : list string)
    : option (list string) :=
  match vs with
  | [] => attr
  | _ :: _ => Some (default [] attr ++ vs)
  end.

(** What one option adds to the include list. *)
Definition flag_includes (f : Argparse.flag) : list string :=
  match f with
  | Argparse.Include v => [v]
  | _ => []
  end.

(** The include attribute is unset or names a list of the store. *)
Definition include_bound (ns : Argparse.namespace) (h : gmap nat (list string)) : Prop :=
  Argparse.include ns = None \/
  is_Some (Argparse.deref h (Argparse.include ns)).

(** The size counted for a file: its [stat] size when the whole block, with
    the content, was written; nothing otherwise. *)
Definition processed_size (w : world) (root_dir output_file : string)
    (exclude_patterns ignore_patterns : list string) (file_path : string)
    : option N :=
  match verdict_of w root_dir output_file exclude_patterns ignore_patterns file_path,
        get_file_info w file_path, read_text w file_path with
  | Ok Emit, Returns file_info, Returns _ => Some (size_bytes file_info)
  | _, _, _ => None
  end.

Definition sum_N (l : list N) : N := fold_right N.add 0%N l.

(** The pattern is plain text for [re]: no character with a special
    meaning. *)
Definition literal_char (c : ascii) : bool :=
  negb (existsb (Ascii.eqb c)
          ["("; ")"; "|"; "\"; "."; "^"; "$"; "*"; "+"; "?"; "["; "{"]%char).

Definition literal (pattern : string) : Prop :=
  List.Forall (fun c => literal_char c = true) (list_ascii_of_string pattern).

(** The expression of a plain text: its characters in a row. *)
Definition seq_of (l : list ascii) : Re.regex :=
  fold_right (fun c r => Re.Seq (Re.Chr c) r) Re.Eps l.

(** The pattern finds a match in the subject. *)
Definition hit (w : world) (subject pattern : string) : bool :=
  match re_search w pattern subject with
  | Ok true => true
  | _ => false
  end.

(** The string the ignore patterns are matched against: the path below the
    root, or the whole path for a file that is not below the root. *)
Definition rel_path_of (file_path root_dir : string) : string :=
  match PyStr.relative_to file_path root_dir with
  | Some rel_path => rel_path
  | None => file_path
  end.

(** No shell metacharacter in the text. *)
Definition plain (s : string) : Prop :=
  List.Forall (fun c => c <> "*"%char /\ c <> "?"%char /\ c <> "["%char)
    (list_ascii_of_string s).

(** The same state, had [pre] been written before everything else. *)
Definition prepend (pre : list string) (st : run_state) : run_state :=
  {| out := pre ++ out st; printed := printed st;
     processed_files := processed_files st; skipped_files := skipped_files st;
     ignored_files := ignored_files st; total_size := total_size st |}.

Definition map_outcome (f : run_state -> run_state) (o : outcome) : outcome :=
  match o with
  | Completed st => Completed (f st)
  | Aborted e st => Aborted e (f st)
  end.

(** A run from the point where the header has been written, started on a
    state without the header; [loaded] is what [load_context_ignore]
    returned. *)
Definition run_body (w : world) (root_dir output_file : string)
    (exclude_patterns : list string) (include_patterns : option (list string))
    (loaded : list string * list string) : outcome :=
  let st := initial_state (opening_lines root_dir loaded) in
  match candidates w include_patterns (regular_files w root_dir) with
  | Raise e => Aborted e st
  | Ok all_files =>
      match process_files w root_dir output_file exclude_patterns loaded.1
              st (sorted all_files) with
      | Aborted e st' => Aborted e st'
      | Completed st' =>
          let st' := write st' (summary_block st') in
          Completed (print st' (closing_lines output_file st'))
      end
  end.

(** The include or exclude list matches the path; searching it raises. *)
Definition matches (w : world) (patterns : list string) (file_path : string) : bool :=
  match search_any w patterns file_path with
  | Ok true => true
  | _ => false
  end.

Definition raises (w : world) (patterns : list string) (file_path : string) : bool :=
  match search_any w patterns file_path with
  | Raise _ => true
  | Ok _ => false
  end.

(** The pattern is accepted by [re.compile]. *)
Definition compiles (w : world) (pattern : string) : Prop :=
  exists test, re_compile w pattern = Ok test.

(** The pattern is one of [Re], and well formed. *)
Definition in_fragment (pattern : string) : bool :=
  match Re.compile pattern with
  | Re.Got _ => true
  | _ => false
  end.

(** The exception of the first pattern of the list that does not compile. *)
Fixpoint first_error (w : world) (patterns : list string) : option exn :=
  match patterns with
  | [] => None
  | pattern :: rest =>
      match re_compile w pattern with
      | Raise e => Some e
      | Ok _ => first_error w rest
      end
  end.

(** The loader written as a filter: the stripped lines that are neither
    empty nor comments. *)
Definition patterns_of_lines (ls : list string) : list string :=
  List.filter (fun line => PyStr.nonempty line && negb (PyStr.startswith line "#"))
    (map PyStr.strip ls).

(** Two runs see the same tree below [root_dir]: every answer of the
    environment is the same, except the clock, the order in which the
    regular files are enumerated, and what is found at the path
    [output_file], which the first run has written. *)
Record same_tree (root_dir output_file : string) (w1 w2 : world) : Prop := {
  same_cwd : cwd w1 = cwd w2;
  same_guess_type : forall p, guess_type w1 p = guess_type w2 p;
  same_re_extension : forall p, re_extension w1 p = re_extension w2 p;
  same_stat_filter : forall p, p <> output_file -> stat_filter w1 p = stat_filter w2 p;
  same_stat_info : forall p, p <> output_file -> stat_info w1 p = stat_info w2 p;
  same_read_chunk : forall p, p <> output_file -> read_chunk w1 p = read_chunk w2 p;
  same_read_text : forall p, p <> output_file -> read_text w1 p = read_text w2 p;
  same_ignore_file : forall p, ignore_file w1 p = ignore_file w2 p;
  same_open_output : open_output w1 output_file = open_output w2 output_file;
  same_files : regular_files w1 root_dir ≡ₚ regular_files w2 root_dir
}.

(* ===================================================================== *)
(** ** Properties of the option parser *)
(* ===================================================================== *)

Section ParserProperties.

Import Argparse.

Lemma alloc_keeps (h : store) (l : list string) (d : loc) (x : list string) :
  h !! d = Some x -> (alloc h l).2 !! d = Some x.
Proof.
  intros Hd. unfold alloc. simpl.
  rewrite lookup_insert_ne; [exact Hd|].
  intros Heq. apply (is_fresh (dom h)). rewrite Heq.
  apply elem_of_dom. eauto.
Qed.

Lemma alloc_lookup (h : store) (l : list string) :
  (alloc h l).2 !! (alloc h l).1 = Some l.
Proof. unfold alloc. simpl. apply lookup_insert_eq. Qed.

Lemma take_flag_spec (ns : namespace) (h : store) (f : flag) (d : loc)
    (dl cur : list string) :
  h !! d = Some dl ->
  deref h (exclude ns) = Some cur ->
  (take_flag (ns, h) f).2 !! d = Some dl /\
  deref (take_flag (ns, h) f).2 (exclude (take_flag (ns, h) f).1)
    = Some (cur ++ flag_excludes f).
Proof.
  intros Hd Hcur. destruct f as [v|v|v|v]; unfold take_flag.
  - simpl. rewrite app_nil_r. auto.
  - simpl. rewrite app_nil_r. auto.
  - unfold append_action.
    pose proof (alloc_keeps h (copy_items h (exclude ns) ++ [v]) d dl Hd) as Hk.
    pose proof (alloc_lookup h (copy_items h (exclude ns) ++ [v])) as Hl.
    destruct (alloc h (copy_items h (exclude ns) ++ [v])) as [a h'].
    simpl in *. split; [exact Hk|].
    rewrite Hl.
    destruct (exclude ns) as [l|]; simpl in *; [|discriminate].
    rewrite Hcur. reflexivity.
  - unfold append_action.
    pose proof (alloc_keeps h (copy_items h (include ns) ++ [v]) d dl Hd) as Hk.
    destruct (exclude ns) as [l|] eqn:Hex; simpl in Hcur; [|discriminate].
    pose proof (alloc_keeps h (copy_items h (include ns) ++ [v]) l cur Hcur) as Hk'.
    destruct (alloc h (copy_items h (include ns) ++ [v])) as [a h'].
    simpl in *. rewrite app_nil_r. auto.
Qed.

Lemma supplied_excludes_cons (f : flag) (argv : list flag) :
  supplied_excludes (f :: argv) = flag_excludes f ++ supplied_excludes argv.
Proof. destruct f; reflexivity. Qed.

Lemma fold_take_flag_spec (argv : list flag) :
  forall (ns : namespace) (h : store) (d : loc) (dl cur : list string),
    h !! d = Some dl ->
    deref h (exclude ns) = Some cur ->
    (fold_left take_flag argv (ns, h)).2 !! d = Some dl /\
    deref (fold_left take_flag argv (ns, h)).2
          (exclude (fold_left take_flag argv (ns, h)).1)
      = Some (cur ++ supplied_excludes argv).
Proof.
  induction argv as [|f argv IH]; intros ns h d dl cur Hd Hcur.
  - simpl. rewrite app_nil_r. auto.
  - cbn [fold_left]. rewrite supplied_excludes_cons, app_assoc.
    destruct (take_flag_spec ns h f d dl cur Hd Hcur) as [Hd' Hcur'].
    destruct (take_flag (ns, h) f) as [ns' h'] eqn:Hf.
    apply IH; assumption.
Qed.

Lemma parse_args_spec (h : store) (argv : list flag) :
  (parse_args (make_parser h).2 (make_parser h).1 argv).2 !! (make_parser h).1
    = Some default_exclude /\
  deref (parse_args (make_parser h).2 (make_parser h).1 argv).2
        (exclude (parse_args (make_parser h).2 (make_parser h).1 argv).1)
    = Some (default_exclude ++ supplied_excludes argv).
Proof.
  unfold parse_args. apply fold_take_flag_spec.
  - apply alloc_lookup.
  - simpl. apply alloc_lookup.
Qed.

Lemma effective_excludes_spec (argv : list flag) :
  effective_excludes argv = default_exclude ++ supplied_excludes argv.
Proof.
  unfold effective_excludes.
  pose proof (parse_args_spec ∅ argv) as [_ H].
  destruct (make_parser ∅) as [dflt h0]. simpl in H.
  destruct (parse_args h0 dflt argv) as [ns h']. simpl in H.
  rewrite H. reflexivity.
Qed.

(** C1, as the code has it: the patterns given with [-e] are appended to
    the built-in defaults, which stay in force; without [-e] the list is
    the defaults; and parsing leaves the parser's default list object as it
    was, whatever store the parser was built in. *)
Theorem C1_exclude_flags_extend_defaults (argv : list flag) :
  effective_excludes argv = default_exclude ++ supplied_excludes argv /\
  (supplied_excludes argv = [] -> effective_excludes argv = default_exclude) /\
  (forall h : store,
     (parse_args (make_parser h).2 (make_parser h).1 argv).2 !! (make_parser h).1
       = Some default_exclude).
Proof.
  split; [apply effective_excludes_spec|]. split.
  - intros Hnone. rewrite effective_excludes_spec, Hnone. apply app_nil_r.
  - intros h. apply parse_args_spec.
Qed.

(** C1 as stated fails: with [-e foo] the defaults are not replaced, and
    a file under [.git] is still excluded by the default [\.git]. *)
Lemma C1_defaults_not_replaced :
  effective_excludes [Exclude "foo"] <> ["foo"%string] /\
  In "\.git"%string (effective_excludes [Exclude "foo"]) /\
  (exists st,
     main (Sample.tree "/proj" "T0" Sample.git_config Absent)
          [Output "/tmp/context.txt"; Exclude "foo"] = Completed st /\
     processed_files st = 0%N /\ skipped_files st = 1%N).
Proof.
  split; [|split].
  - vm_compute. discriminate.
  - vm_compute. auto.
  - eexists. split; [vm_compute; reflexivity|]. split; reflexivity.
Qed.

End ParserProperties.


(* ===================================================================== *)
(** ** The order of paths *)
(* ===================================================================== *)

Section PathOrder.

#[global] Instance str_le_total : Total str_le.
Proof.
  intros a b. unfold str_le.
  destruct (String_as_OT.compare_spec a b) as [Heq|Hlt|Hgt].
  - left. discriminate.
  - left. discriminate.
  - right. unfold String_as_OT.lt in Hgt. rewrite Hgt. discriminate.
Qed.

Lemma str_le_cases (a b : string) : str_le a b <-> a = b \/ str_lt a b.
Proof.
  unfold str_le, str_lt.
  destruct (String_as_OT.compare_spec a b) as [Heq|Hlt|Hgt]; split.
  - auto.
  - discriminate.
  - auto.
  - discriminate.
  - intros H. exfalso. apply H. reflexivity.
  - intros [Heq|Hlt]; [|discriminate].
    subst b. exfalso. exact (irreflexivity String_as_OT.lt a Hgt).
Qed.

Lemma str_lt_trans (a b c : string) : str_lt a b -> str_lt b c -> str_lt a c.
Proof. exact (transitivity (R := String_as_OT.lt) (x := a) (y := b) (z := c)). Qed.

Lemma str_lt_irrefl (a : string) : ~ str_lt a a.
Proof. exact (irreflexivity String_as_OT.lt a). Qed.

#[global] Instance str_le_trans : Transitive str_le.
Proof.
  intros a b c Hab Hbc.
  apply str_le_cases in Hab. apply str_le_cases in Hbc. apply str_le_cases.
  destruct Hab as [->|Hab]; [exact Hbc|].
  destruct Hbc as [->|Hbc]; [right; exact Hab|].
  right. exact (str_lt_trans a b c Hab Hbc).
Qed.

#[global] Instance str_le_antisym : AntiSymm (=) str_le.
Proof.
  intros a b Hab Hba.
  apply str_le_cases in Hab. apply str_le_cases in Hba.
  destruct Hab as [->|Hab]; [reflexivity|].
  destruct Hba as [->|Hba]; [reflexivity|].
  exfalso. exact (str_lt_irrefl a (str_lt_trans a b a Hab Hba)).
Qed.

Lemma str_le_neq_lt (a b : string) : str_le a b -> a <> b -> str_lt a b.
Proof. intros H Hne. apply str_le_cases in H. destruct H; [contradiction|assumption]. Qed.

Lemma sorted_perm (l : list string) : sorted l ≡ₚ l.
Proof. apply merge_sort_Permutation. Qed.

Lemma sorted_strongly (l : list string) : StronglySorted str_le (sorted l).
Proof. apply StronglySorted_merge_sort; apply _. Qed.

(** The sorted list does not depend on the order of enumeration. *)
Lemma sorted_of_permutation (l1 l2 : list string) :
  l1 ≡ₚ l2 -> sorted l1 = sorted l2.
Proof.
  intros Hp. apply (StronglySorted_unique str_le).
  - apply sorted_strongly.
  - apply sorted_strongly.
  - rewrite !sorted_perm. exact Hp.
Qed.

Lemma strongly_sorted_strict (l : list string) :
  StronglySorted str_le l -> NoDup l -> StronglySorted str_lt l.
Proof.
  induction 1 as [|a l Hs IH Hall]; intros Hnd.
  - constructor.
  - apply NoDup_cons in Hnd as [Hnotin Hnd].
    constructor; [apply IH, Hnd|].
    apply List.Forall_forall. intros b Hb.
    apply str_le_neq_lt.
    + rewrite List.Forall_forall in Hall. apply Hall, Hb.
    + intros ->. apply Hnotin. apply list_elem_of_In. exact Hb.
Qed.

Lemma strongly_sorted_filter (R : relation string) (f : string -> bool) (l : list string) :
  StronglySorted R l -> StronglySorted R (List.filter f l).
Proof.
  induction 1 as [|a l Hs IH Hall]; simpl.
  - constructor.
  - destruct (f a); [|exact IH].
    constructor; [exact IH|].
    apply List.Forall_forall. intros b Hb. apply List.filter_In in Hb as [Hb _].
    rewrite List.Forall_forall in Hall. apply Hall, Hb.
Qed.

End PathOrder.

(* ===================================================================== *)
(** ** The loop body: one file, one counter *)
(* ===================================================================== *)

Section LoopBody.

Variable w : world.
Variables root_dir output_file : string.
Variables exclude_patterns ignore_patterns : list string.

Local Abbreviation process_file' :=
  (process_file w root_dir output_file exclude_patterns ignore_patterns).
Local Abbreviation process_files' :=
  (process_files w root_dir output_file exclude_patterns ignore_patterns).
Local Abbreviation verdict_of' :=
  (verdict_of w root_dir output_file exclude_patterns ignore_patterns).

Local Opaque metadata_block.

Lemma process_file_verdict (st : run_state) (p : string) :
  process_file' st p = (v ← verdict_of' p; Ok (apply_verdict w p v st)).
Proof.
  unfold process_file, verdict_of.
  destruct (String.eqb p output_file); [reflexivity|].
  destruct (should_include_file w p root_dir exclude_patterns ignore_patterns)
    as [[|]|e]; simpl; try reflexivity.
  destruct (is_ignored_by_patterns p root_dir ignore_patterns); reflexivity.
Qed.

(** The text the handler of the [try] block prints. *)
Lemma emit_file_cases (st : run_state) (p : string) :
  (exists msg,
     (get_file_info w p = Fails msg \/
      ((exists info, get_file_info w p = Returns info) /\ read_text w p = Fails msg)) /\
     emit_file w st p
     = count_skipped
         (print (write st (file_writes w p))
            ["Error processing file " +:+ p +:+ ": " +:+ msg])) \/
  (exists info content,
     get_file_info w p = Returns info /\ read_text w p = Returns content /\
     emit_file w st p
       = count_processed (write st (file_writes w p)) (size_bytes info)).
Proof.
  unfold emit_file, file_writes.
  destruct (get_file_info w p) as [info|msg].
  - destruct (read_text w p) as [content|msg].
    + right. exists info, content. repeat split.
      unfold write. simpl. rewrite <- app_assoc. reflexivity.
    + left. exists msg. split; [right; eauto|].
      unfold write, print, count_skipped. simpl.
      rewrite app_nil_r. reflexivity.
  - left. exists msg. split; [left; reflexivity|].
    unfold write, print, count_skipped. simpl.
    rewrite app_nil_r. reflexivity.
Qed.

Lemma emit_file_bumps (st : run_state) (p : string) : bumps_one st (emit_file w st p).
Proof.
  destruct (emit_file_cases st p) as [(msg & _ & ->)|(info & content & _ & _ & ->)].
  - apply bump_skipped; reflexivity.
  - apply bump_processed; reflexivity.
Qed.

Lemma emit_file_out (st : run_state) (p : string) :
  out (emit_file w st p) = out st ++ file_writes w p.
Proof.
  destruct (emit_file_cases st p) as [(msg & _ & ->)|(info & content & _ & _ & ->)];
    reflexivity.
Qed.

Lemma apply_verdict_bumps (st : run_state) (p : string) (v : verdict) :
  bumps_one st (apply_verdict w p v st).
Proof.
  destruct v; simpl.
  - apply emit_file_bumps.
  - apply bump_ignored; reflexivity.
  - apply bump_skipped; reflexivity.
Qed.

Lemma process_file_bumps (st st' : run_state) (p : string) :
  process_file' st p = Ok st' -> bumps_one st st'.
Proof.
  rewrite process_file_verdict.
  destruct (verdict_of' p) as [v|e]; simpl; [|discriminate].
  intros [= <-]. apply apply_verdict_bumps.
Qed.

Lemma bumps_one_counted (st st' : run_state) :
  bumps_one st st' -> counted st' = (counted st + 1)%N.
Proof. unfold counted. intros [H1 H2 H3|H1 H2 H3|H1 H2 H3]; lia. Qed.

Lemma process_files_counted (files : list string) :
  forall st st', process_files' st files = Completed st' ->
    counted st' = (counted st + N.of_nat (length files))%N.
Proof.
  induction files as [|p files IH]; intros st st' Hrun; simpl in Hrun.
  - injection Hrun as <-. simpl. lia.
  - destruct (process_file' st p) as [st1|e] eqn:Hp; [|discriminate].
    apply process_file_bumps, bumps_one_counted in Hp.
    apply IH in Hrun. simpl length. lia.
Qed.

(** The loop ends normally when no verdict raises. *)
Lemma process_files_completes (files : list string) :
  (forall p, In p files -> exists v, verdict_of' p = Ok v) ->
  forall st, exists st', process_files' st files = Completed st'.
Proof.
  induction files as [|p files IH]; intros Hok st; simpl.
  - eauto.
  - destruct (Hok p (or_introl eq_refl)) as [v Hv].
    rewrite process_file_verdict, Hv. simpl.
    apply IH. intros q Hq. apply Hok. right. exact Hq.
Qed.

(** What the loop has written: the blocks of the files it went through --
    all of them when it ends normally, those before the file whose verdict
    raises otherwise. *)
Lemma process_files_out (files : list string) :
  forall st, exists done rest,
    files = done ++ rest /\
    out (final (process_files' st files))
      = out st ++ flat_map (file_writes w)
                    (List.filter
                       (has_block w root_dir output_file exclude_patterns ignore_patterns)
                       done) /\
    (forall st', process_files' st files = Completed st' -> rest = []) /\
    (forall e st', process_files' st files = Aborted e st' ->
       exists f rest', rest = f :: rest' /\ verdict_of' f = Raise e).
Proof.
  induction files as [|p files IH]; intros st.
  - exists [], []. simpl. rewrite app_nil_r.
    split; [reflexivity|]. split; [reflexivity|]. split; [auto|discriminate].
  - simpl. rewrite process_file_verdict.
    destruct (verdict_of' p) as [v|e] eqn:Hv; simpl.
    + destruct (IH (apply_verdict w p v st))
        as (done & rest & -> & Hout & Hdone & Hstop).
      exists (p :: done), rest. split; [reflexivity|].
      split; [|split; [exact Hdone|exact Hstop]].
      rewrite Hout.
      assert (Hb : has_block w root_dir output_file exclude_patterns ignore_patterns p
                   = match v, get_file_info w p with
                     | Emit, Returns _ => true
                     | _, _ => false
                     end)
        by (unfold has_block; rewrite Hv; reflexivity).
      cbn [List.filter]. rewrite Hb.
      destruct v; cbn [apply_verdict].
      * rewrite emit_file_out.
        destruct (get_file_info w p) as [info|msg] eqn:Hinfo.
        -- cbn [flat_map]. rewrite app_assoc. reflexivity.
        -- unfold file_writes at 1. rewrite Hinfo, app_nil_r. reflexivity.
      * reflexivity.
      * reflexivity.
    + exists [], (p :: files). simpl. rewrite app_nil_r.
      split; [reflexivity|]. split; [reflexivity|]. split; [discriminate|].
      intros e' st' [= <- <-]. eauto.
Qed.

End LoopBody.


(* ===================================================================== *)
(** ** Whole runs: counters, the output guard, exceptions *)
(* ===================================================================== *)

Section Runs.

Local Opaque metadata_block summary_block header closing_lines sorted.

Lemma in_fragment_compiles (w : world) (pattern : string) :
  in_fragment pattern = true -> compiles w pattern.
Proof.
  unfold in_fragment, compiles, re_compile.
  destruct (Re.compile pattern) as [r| |]; try discriminate. eauto.
Qed.

Lemma fragment_list_compiles (w : world) (ps : list string) :
  forallb in_fragment ps = true -> Forall (compiles w) ps.
Proof.
  induction ps as [|p ps IH]; simpl; [constructor|].
  intros H. apply andb_true_iff in H as [Hp Hps].
  constructor; [apply in_fragment_compiles, Hp|apply IH, Hps].
Qed.

(** Whatever the subject, a search that raises raises the exception of the
    first pattern that does not compile. *)
Lemma search_any_raise (w : world) (ps : list string) (s : string) (e : exn) :
  search_any w ps s = Raise e -> first_error w ps = Some e.
Proof.
  induction ps as [|p ps IH]; simpl; [discriminate|].
  unfold re_search. destruct (re_compile w p) as [test|e']; simpl.
  - destruct (test s); [discriminate|exact IH].
  - intros [= <-]. reflexivity.
Qed.

Lemma search_any_compiles (w : world) (ps : list string) (s : string) :
  Forall (compiles w) ps -> exists b, search_any w ps s = Ok b.
Proof.
  induction 1 as [|p ps [test Hp] _ IH]; simpl.
  - eauto.
  - unfold re_search. rewrite Hp. simpl. destruct (test s); eauto.
Qed.

(** The include filter keeps the matching files in their order, unless the
    search raises for one of the files. *)
Lemma filter_included_ok (w : world) (ps : list string) (l : list string) :
  existsb (raises w ps) l = false ->
  filter_included w ps l = Ok (List.filter (matches w ps) l).
Proof.
  induction l as [|x l IH]; [reflexivity|].
  cbn [filter_included existsb List.filter]. unfold raises at 1, matches at 1.
  destruct (search_any w ps x) as [b|e]; simpl; [|discriminate].
  intros Hl. rewrite (IH Hl). simpl. destruct b; reflexivity.
Qed.

Lemma filter_included_raise (w : world) (ps : list string) (l : list string) :
  existsb (raises w ps) l = true ->
  exists e, first_error w ps = Some e /\ filter_included w ps l = Raise e.
Proof.
  induction l as [|x l IH]; [discriminate|].
  cbn [filter_included existsb]. unfold raises at 1.
  destruct (search_any w ps x) as [b|e] eqn:Hx; simpl.
  - intros Hl. destruct (IH Hl) as (e & He & ->). exists e. auto.
  - intros _. exists e. split; [exact (search_any_raise w ps x e Hx)|reflexivity].
Qed.

Lemma filter_included_inv (w : world) (ps : list string) (l files : list string) :
  filter_included w ps l = Ok files ->
  existsb (raises w ps) l = false /\ files = List.filter (matches w ps) l.
Proof.
  intros Hf. destruct (existsb (raises w ps) l) eqn:Hex.
  - destruct (filter_included_raise w ps l Hex) as (e & _ & He). congruence.
  - rewrite (filter_included_ok w ps l Hex) in Hf. injection Hf as <-. auto.
Qed.

Lemma candidates_subset (w : world) (incl : option (list string))
    (l files : list string) :
  candidates w incl l = Ok files -> forall p, In p files -> In p l.
Proof.
  destruct incl as [[|q ps]|]; simpl candidates; try (intros [= <-]; auto).
  intros Hf. apply filter_included_inv in Hf as [_ ->].
  intros p Hp. apply List.filter_In in Hp. tauto.
Qed.

Lemma raises_compiles (w : world) (ps : list string) (l : list string) :
  Forall (compiles w) ps -> existsb (raises w ps) l = false.
Proof.
  intros Hc. apply not_true_is_false. intros Hex.
  apply List.existsb_exists in Hex as (x & _ & Hx).
  unfold raises in Hx.
  destruct (search_any_compiles w ps x Hc) as [b Hb].
  rewrite Hb in Hx. discriminate.
Qed.

Lemma candidates_compiles (w : world) (incl : option (list string))
    (l : list string) :
  (forall ps, incl = Some ps -> Forall (compiles w) ps) ->
  exists files, candidates w incl l = Ok files.
Proof.
  intros Hc. destruct incl as [[|q ps]|]; simpl candidates; eauto.
  rewrite (filter_included_ok w (q :: ps) l); [eauto|].
  apply raises_compiles, Hc. reflexivity.
Qed.

(** A run that ends normally has gone through the loop. *)
Lemma create_context_file_completed (w : world) (root_dir output_file : string)
    (excl : list string) (incl : option (list string)) (st : run_state) :
  create_context_file w root_dir output_file excl incl = Completed st ->
  exists loaded files st',
    load_context_ignore w root_dir = Ok loaded /\
    open_output w output_file = Returns tt /\
    candidates w incl (regular_files w root_dir) = Ok files /\
    process_files w root_dir output_file excl loaded.1
      (write (initial_state (opening_lines root_dir loaded)) (header w root_dir))
      (sorted files) = Completed st' /\
    st = print (write st' (summary_block st')) (closing_lines output_file st').
Proof.
  unfold create_context_file.
  destruct (load_context_ignore w root_dir) as [loaded|e]; [|discriminate].
  cbv zeta.
  destruct (open_output w output_file) as [[]|msg]; [|discriminate].
  destruct (candidates w incl (regular_files w root_dir)) as [files|e]; [|discriminate].
  destruct (process_files _ _ _ _ _ _ _) as [st'|e st'] eqn:Hrun; [|discriminate].
  intros [= <-]. exists loaded, files, st'. auto.
Qed.

(** C2, as the code has it: in a run that ends normally every candidate
    file -- every discovered regular file that passed the include filter,
    that is every discovered file when no include pattern is given -- adds
    one to exactly one of the three counters. *)
Theorem C2_every_candidate_counted_once (w : world) (root_dir output_file : string)
    (excl : list string) (incl : option (list string)) (st : run_state) :
  create_context_file w root_dir output_file excl incl = Completed st ->
  exists files,
    candidates w incl (regular_files w root_dir) = Ok files /\
    counted st = N.of_nat (length files) /\
    (incl = None \/ incl = Some [] -> files = regular_files w root_dir) /\
    (forall ign st0 p st1,
       process_file w root_dir output_file excl ign st0 p = Ok st1 ->
       bumps_one st0 st1).
Proof.
  intros Hrun.
  apply create_context_file_completed in Hrun
    as (loaded & files & st' & _ & _ & Hc & Hloop & ->).
  exists files. split; [exact Hc|]. split; [|split].
  - apply process_files_counted in Hloop.
    assert (Hlen : length (sorted files) = length files)
      by (apply Permutation_length, sorted_perm).
    rewrite Hlen in Hloop. unfold counted in *. simpl in *. lia.
  - intros [->| ->]; simpl in Hc; congruence.
  - intros ign st0 p st1. apply process_file_bumps.
Qed.

Lemma C2_every_candidate_counted_once_witness :
  exists files,
    candidates (Sample.tree "/proj" "T0" Sample.two_files Absent) None
      (regular_files (Sample.tree "/proj" "T0" Sample.two_files Absent) "/proj")
      = Ok files /\
    counted (final (create_context_file
                      (Sample.tree "/proj" "T0" Sample.two_files Absent)
                      "/proj" "/tmp/context.txt" Argparse.default_exclude None))
      = N.of_nat (length files).
Proof.
  destruct (C2_every_candidate_counted_once
              (Sample.tree "/proj" "T0" Sample.two_files Absent)
              "/proj" "/tmp/context.txt" Argparse.default_exclude None
              (final (create_context_file
                        (Sample.tree "/proj" "T0" Sample.two_files Absent)
                        "/proj" "/tmp/context.txt" Argparse.default_exclude None)))
    as (files & Hc & Hn & _).
  - vm_compute. reflexivity.
  - exists files. split; assumption.
Defined.

(** C2 as stated fails when include patterns are given: of the two regular
    files under the root, the one that matches no include pattern is in no
    counter. *)
Lemma C2_unmatched_file_in_no_counter :
  exists st,
    create_context_file (Sample.tree "/proj" "T0" Sample.two_files Absent)
      "/proj" "/tmp/context.txt" Argparse.default_exclude (Some ["\.md$"%string])
      = Completed st /\
    length (regular_files (Sample.tree "/proj" "T0" Sample.two_files Absent) "/proj") = 2 /\
    counted st = 1%N.
Proof.
  eexists. split; [vm_compute; reflexivity|]. split; reflexivity.
Qed.

Lemma should_include_excluded (w : world) (p root_dir : string)
    (excl ign : list string) :
  search_any w excl p = Ok true ->
  should_include_file w p root_dir excl ign = Ok false.
Proof. unfold should_include_file. intros ->. reflexivity. Qed.

Lemma should_include_ignored (w : world) (p root_dir : string)
    (excl ign : list string) :
  search_any w excl p = Ok false ->
  is_ignored_by_patterns p root_dir ign = true ->
  should_include_file w p root_dir excl ign = Ok false.
Proof. unfold should_include_file. intros -> Hi. simpl. rewrite Hi. reflexivity. Qed.




(** When the path string of a discovered file is the output argument, the
    guard of line 252 counts the file as skipped and nothing else happens
    to it. *)
Lemma output_guard_on_equal_strings (w : world) (root_dir output_file : string)
    (excl ign : list string) (st : run_state) :
  process_file w root_dir output_file excl ign st output_file
  = Ok (count_skipped st).
Proof. unfold process_file. rewrite String.eqb_refl. reflexivity. Qed.

(** C4 fails on the code: the guard of line 252 compares the path string
    of a discovered file with the output argument as it was typed.  Run
    from the root with the default output name, in a directory that holds
    nothing but the output file the run has just opened, the guard does not
    recognise [/proj/gemini_context.txt] in [gemini_context.txt]: the output
    file is aggregated into itself, under a FILE line of its own, and is
    counted as processed, not as skipped.  Named by its full path, the same
    file is skipped, as the comment of line 251 announces. *)
Theorem C4_default_output_is_aggregated_into_itself :
  (exists st,
     main (Sample.tree "/proj" "T0" [("/proj/gemini_context.txt", "")]%string Absent) []
       = Completed st /\
     processed_files st = 1%N /\ skipped_files st = 0%N /\
     In ("FILE: gemini_context.txt" +:+ nl) (out st)) /\
  (exists st,
     main (Sample.tree "/proj" "T0" [("/proj/gemini_context.txt", "")]%string Absent)
       [Argparse.Output "/proj/gemini_context.txt"] = Completed st /\
     processed_files st = 0%N /\ skipped_files st = 1%N /\
     ~ In ("FILE: gemini_context.txt" +:+ nl) (out st)).
Proof.
  split.
  - eexists. split; [vm_compute; reflexivity|].
    split; [reflexivity|]. split; [reflexivity|].
    vm_compute. tauto.
  - eexists. split; [vm_compute; reflexivity|].
    split; [reflexivity|]. split; [reflexivity|].
    vm_compute. intros H.
    repeat (destruct H as [H|H]; [discriminate H|]). exact H.
Qed.

Lemma string_app_assoc (a b c : string) : a +:+ (b +:+ c) = (a +:+ b) +:+ c.
Proof.
  induction a as [|x a IH]; [reflexivity|].
  change (String x (a +:+ (b +:+ c)) = String x ((a +:+ b) +:+ c)).
  f_equal. exact IH.
Qed.

Lemma startswith_app (s t : string) : PyStr.startswith (s +:+ t) s = true.
Proof.
  unfold PyStr.startswith. induction s as [|c s IH].
  - destruct t; reflexivity.
  - change (String.prefix (String c s) (String c (s +:+ t)) = true).
    simpl. destruct (ascii_dec c c) as [_|Hc]; [exact IH|contradiction].
Qed.

Lemma should_include_total (w : world) (p root_dir : string)
    (excl ign : list string) (stats : stat_result) :
  Forall (compiles w) excl -> stat_filter w p = Returns stats ->
  exists b, should_include_file w p root_dir excl ign = Ok b.
Proof.
  intros Hc Hs. unfold should_include_file.
  destruct (search_any_compiles w excl p Hc) as [b ->]. simpl.
  destruct b; [eauto|].
  destruct (is_ignored_by_patterns p root_dir ign); [eauto|].
  destruct (is_binary_file w p); [eauto|].
  rewrite Hs. destruct (1000000 <? st_size stats)%N; eauto.
Qed.

Lemma verdict_of_total (w : world) (root_dir output_file : string)
    (excl ign : list string) (p : string) (stats : stat_result) :
  Forall (compiles w) excl -> stat_filter w p = Returns stats ->
  exists v, verdict_of w root_dir output_file excl ign p = Ok v.
Proof.
  intros Hc Hs. unfold verdict_of.
  destruct (String.eqb p output_file); [eauto|].
  destruct (should_include_total w p root_dir excl ign stats Hc Hs) as [b ->].
  simpl. eauto.
Qed.

Lemma load_context_ignore_accessible (w : world) (root_dir : string) :
  (forall msg, ignore_file w (joinpath root_dir ".context-ignore") <> Inaccessible msg) ->
  exists loaded, load_context_ignore w root_dir = Ok loaded.
Proof.
  intros Hacc. unfold load_context_ignore.
  destruct (ignore_file w (joinpath root_dir ".context-ignore")) as [|msg|msg|ls failure];
    eauto.
  exfalso. exact (Hacc msg eq_refl).
Qed.




End Runs.

(* ===================================================================== *)
(** ** The file classifier and the metadata block *)
(* ===================================================================== *)

Section Classifier.

(** The test for architecture decision records comes after the test for the
    documentation extensions, which [.md] passes: the tag is never given. *)
Lemma file_type_never_architecture_decision (w : world) (p : string) :
  file_type w p <> "architecture_decision"%string.
Proof.
  unfold file_type.
  destruct (guess_type w p) as [m|].
  - destruct (PyStr.startswith m "text"); [|discriminate].
    destruct (PyStr.contains "markdown" m); [discriminate|].
    destruct (PyStr.mem _ _); discriminate.
  - destruct (PyStr.mem (PyStr.suffix p) [".py"; _; _; _; _; _; _; _; _; _]);
      [discriminate|].
    destruct (PyStr.mem (PyStr.suffix p) [".md"; _; _; _]) eqn:Hdoc; [discriminate|].
    destruct (PyStr.mem (PyStr.lower (PyStr.name p)) _); [discriminate|].
    destruct (String.eqb (PyStr.suffix p) ".md") eqn:Hmd.
    + apply String.eqb_eq in Hmd. rewrite Hmd in Hdoc. discriminate.
    + rewrite andb_false_r. discriminate.
Qed.

(** C6 fails on the code: a Markdown file under an [adr] directory is
    tagged [documentation], with the stock MIME table and without one, and
    no file at all is tagged [architecture_decision]. *)
Theorem C6_adr_markdown_tagged_documentation :
  PyStr.contains "adr" (PyStr.lower "/proj/docs/adr/0001-use-postgres.md") = true /\
  PyStr.suffix "/proj/docs/adr/0001-use-postgres.md" = ".md"%string /\
  file_type (Sample.tree "/proj" "T0" [] Absent)
    "/proj/docs/adr/0001-use-postgres.md" = "documentation"%string /\
  (forall w, guess_type w "/proj/docs/adr/0001-use-postgres.md" = None ->
     file_type w "/proj/docs/adr/0001-use-postgres.md" = "documentation"%string) /\
  (forall w p, file_type w p <> "architecture_decision"%string).
Proof.
  split; [reflexivity|]. split; [reflexivity|]. split; [reflexivity|]. split.
  - intros w Hm. unfold file_type. rewrite Hm. reflexivity.
  - apply file_type_never_architecture_decision.
Qed.

(** C7 fails on the code: the FILE line is the path with the working
    directory cut out, not the path below the scanned root.  Run from
    [/home/user] on the root [/srv/proj], the block of [/srv/proj/a.py] reads
    [FILE: /srv/proj/a.py]; and even from the root itself, cutting every
    occurrence of the working directory turns [/a/x/a/b.py] into [xb.py]. *)
Theorem C7_file_line_is_not_root_relative :
  PyStr.relative_to "/srv/proj/a.py" "/srv/proj" = Some "a.py"%string /\
  (exists st,
     create_context_file
       (Sample.tree "/home/user" "T0" [("/srv/proj/a.py", "print(1)")]%string Absent)
       "/srv/proj" "/tmp/context.txt" Argparse.default_exclude None = Completed st /\
     In ("FILE: /srv/proj/a.py" +:+ nl) (out st) /\
     ~ In ("FILE: a.py" +:+ nl) (out st)) /\
  PyStr.relative_to "/a/x/a/b.py" "/a" = Some "x/a/b.py"%string /\
  (exists info,
     get_file_info (Sample.tree "/a" "T0" [("/a/x/a/b.py", "print(1)")]%string Absent)
       "/a/x/a/b.py" = Returns info /\
     relative_path info = "xb.py"%string).
Proof.
  split; [reflexivity|]. split; [|split; [reflexivity|]].
  - eexists. split; [vm_compute; reflexivity|]. split.
    + vm_compute. tauto.
    + vm_compute. intros H.
      repeat (destruct H as [H|H]; [discriminate H|]). exact H.
  - eexists. split; [vm_compute; reflexivity|]. reflexivity.
Qed.

(** When the working directory is the root and its string occurs once in
    the path, the FILE line is the path below the root. *)
Lemma file_line_from_the_root :
  exists info,
    get_file_info (Sample.tree "/proj" "T0" Sample.two_files Absent) "/proj/a.py"
      = Returns info /\
    Some (relative_path info) = PyStr.relative_to "/proj/a.py" "/proj".
Proof. eexists. split; [vm_compute; reflexivity|]. reflexivity. Qed.

End Classifier.

(* ===================================================================== *)
(** ** The pattern loader *)
(* ===================================================================== *)

Section Loader.

Lemma read_patterns_app (ls : list string) :
  forall acc, read_patterns acc ls = acc ++ patterns_of_lines ls.
Proof.
  unfold patterns_of_lines.
  induction ls as [|line ls IH]; intros acc; simpl.
  - rewrite app_nil_r. reflexivity.
  - destruct (PyStr.nonempty (PyStr.strip line)
              && negb (PyStr.startswith (PyStr.strip line) "#")).
    + rewrite IH, <- app_assoc. reflexivity.
    + apply IH.
Qed.

(** C9, as the code has it: the loader returns the stripped non-empty,
    non-comment lines in file order -- of the whole file when it is read to
    the end, and of the lines read so far when a read fails on the way; it
    returns the empty list when the file is absent or cannot be opened.  A
    failure of [open] or of a read is printed with the text of its
    exception and never raised; only an exception of the existence test,
    which is outside the [try], leaves the loader. *)
Theorem C9_loader_keeps_lines_read_before_failure (w : world) (root_dir : string) :
  load_context_ignore w root_dir
  = match ignore_file w (joinpath root_dir ".context-ignore") with
    | Absent => Ok ([], [])
    | Inaccessible msg => Raise (OSError msg)
    | Unopenable msg =>
        Ok ([],
            [ "Found .context-ignore file at " +:+ joinpath root_dir ".context-ignore";
              "Error reading .context-ignore file: " +:+ msg ])
    | Lines ls None =>
        Ok (patterns_of_lines ls,
            [ "Found .context-ignore file at " +:+ joinpath root_dir ".context-ignore" ])
    | Lines ls (Some msg) =>
        Ok (patterns_of_lines ls,
            [ "Found .context-ignore file at " +:+ joinpath root_dir ".context-ignore";
              "Error reading .context-ignore file: " +:+ msg ])
    end.
Proof.
  unfold load_context_ignore.
  destruct (ignore_file w (joinpath root_dir ".context-ignore"))
    as [|msg|msg|ls [msg|]]; try reflexivity;
    rewrite (read_patterns_app ls []); reflexivity.
Qed.

(** C9 as stated fails: when a read fails after two lines have been read,
    the loader returns the two patterns, not the empty list. *)
Lemma C9_partial_read_returns_patterns :
  load_context_ignore
    (Sample.tree "/proj" "T0" []
       (Lines ["build/" +:+ nl; "*.log" +:+ nl] (Some "[Errno 5] Input/output error")))
    "/proj"
  = Ok (["build/"; "*.log"]%string,
        [ "Found .context-ignore file at /proj/.context-ignore";
          "Error reading .context-ignore file: [Errno 5] Input/output error" ]%string).
Proof. vm_compute. reflexivity. Qed.

End Loader.

(* ===================================================================== *)
(** ** Searching the full path *)
(* ===================================================================== *)

Section FullPathSearch.

Import Re.

Lemma list_ascii_of_string_app (a b : string) :
  list_ascii_of_string (a +:+ b) = list_ascii_of_string a ++ list_ascii_of_string b.
Proof.
  induction a as [|c a IH]; [reflexivity|].
  change (c :: list_ascii_of_string (a +:+ b)
          = c :: (list_ascii_of_string a ++ list_ascii_of_string b)).
  f_equal. exact IH.
Qed.

Lemma star_loop_extend (body : bool -> list ascii -> cont -> bool)
    (k k' : cont) (t : list ascii) :
  (forall b s k1 k2, carries t k1 k2 ->
     body b s k1 = true -> body b (s ++ t) k2 = true) ->
  carries t k k' ->
  forall n n' b s, n <= n' ->
    star_loop body k n b s = true -> star_loop body k' n' b (s ++ t) = true.
Proof.
  intros Hbody Hk. induction n as [|n IH]; intros n' b s Hle Hrun.
  - simpl in Hrun. rewrite orb_false_r in Hrun.
    destruct n'; simpl; rewrite (Hk b s Hrun); reflexivity.
  - destruct n' as [|n']; [lia|].
    simpl in Hrun. apply orb_true_iff in Hrun as [Hnow|Hstep].
    + simpl. rewrite (Hk b s Hnow). reflexivity.
    + simpl. apply orb_true_iff. right.
      apply (Hbody b s _ _) with (2 := Hstep).
      intros b' s' Hin. apply andb_true_iff in Hin as [Hlt Hrest].
      apply andb_true_iff. split.
      * apply Nat.ltb_lt in Hlt. apply Nat.ltb_lt.
        rewrite !length_app. lia.
      * apply IH; [lia|exact Hrest].
Qed.

(** A match of an expression without [$] is still a match when the subject
    is extended. *)
Lemma rmatch_extend (r : regex) (t : list ascii) :
  eol_free r = true ->
  forall b s k k', carries t k k' ->
    rmatch r b s k = true -> rmatch r b (s ++ t) k' = true.
Proof.
  induction r as [|c| | | |r1 IH1 r2 IH2|r1 IH1 r2 IH2|r1 IH1];
    intros Hfree b s k k' Hk Hm; simpl in Hfree.
  - simpl in *. apply Hk, Hm.
  - destruct s as [|x s]; simpl in *; [discriminate|].
    apply andb_true_iff in Hm as [Hx Hrest].
    rewrite Hx. simpl. apply Hk, Hrest.
  - destruct s as [|x s]; simpl in *; [discriminate|].
    apply andb_true_iff in Hm as [Hx Hrest].
    rewrite Hx. simpl. apply Hk, Hrest.
  - simpl in *. apply andb_true_iff in Hm as [Hb Hrest].
    subst b. simpl. apply Hk, Hrest.
  - discriminate.
  - apply andb_true_iff in Hfree as [Hf1 Hf2]. simpl in *.
    apply (IH1 Hf1 b s _ _) with (2 := Hm).
    intros b' s' Hin. apply (IH2 Hf2 b' s' k k' Hk Hin).
  - apply andb_true_iff in Hfree as [Hf1 Hf2]. simpl in *.
    apply orb_true_iff in Hm as [Hm|Hm]; apply orb_true_iff.
    + left. apply (IH1 Hf1 b s k k' Hk Hm).
    + right. apply (IH2 Hf2 b s k k' Hk Hm).
  - simpl in *.
    apply (star_loop_extend (rmatch r1) k k' t) with (n := length s).
    + intros b0 s0 k1 k2 Hc. apply (IH1 Hfree b0 s0 k1 k2 Hc).
    + exact Hk.
    + rewrite length_app. lia.
    + exact Hm.
Qed.

Lemma search_from_extend (r : regex) (t : list ascii) :
  eol_free r = true ->
  forall s b, search_from r b s = true -> search_from r b (s ++ t) = true.
Proof.
  intros Hfree.
  assert (Hacc : carries t accept accept) by (intros b s _; reflexivity).
  induction s as [|x s IH]; intros b Hs.
  - simpl in Hs. rewrite orb_false_r in Hs.
    apply (rmatch_extend r t Hfree b [] accept accept Hacc) in Hs.
    simpl app in Hs. destruct t; simpl; rewrite Hs; reflexivity.
  - simpl in Hs. apply orb_true_iff in Hs as [Hnow|Hlater].
    + apply (rmatch_extend r t Hfree b (x :: s) accept accept Hacc) in Hnow.
      simpl app in *. simpl. rewrite Hnow. reflexivity.
    + simpl. apply orb_true_iff. right. apply IH, Hlater.
Qed.

Lemma found_extend (r : regex) (s t : string) :
  eol_free r = true -> found r s = true -> found r (s +:+ t) = true.
Proof.
  unfold found. intros Hfree Hs. rewrite list_ascii_of_string_app.
  apply (search_from_extend r _ Hfree _ true Hs).
Qed.

Lemma re_search_got (w : world) (pattern : string) (r : regex) (subject : string) :
  compile pattern = Got r -> re_search w pattern subject = Ok (found r subject).
Proof. unfold re_search, re_compile. intros ->. reflexivity. Qed.

Lemma search_any_in (w : world) (ps : list string) (pattern subject : string) :
  Forall (compiles w) ps -> In pattern ps ->
  re_search w pattern subject = Ok true -> search_any w ps subject = Ok true.
Proof.
  induction 1 as [|p ps [test Hp] _ IH]; intros Hin Hs; [destruct Hin|].
  simpl. destruct Hin as [->|Hin].
  - rewrite Hs. reflexivity.
  - unfold re_search at 1. rewrite Hp. simpl.
    destruct (test subject); [reflexivity|].
    apply IH; assumption.
Qed.




End FullPathSearch.


(* ===================================================================== *)
(** ** Reproducible output *)
(* ===================================================================== *)

Section Reproducible.

Local Opaque metadata_block summary_block closing_lines sorted.

Variables w1 w2 : world.
Variables root_dir output_file : string.
Hypothesis Hsame : same_tree root_dir output_file w1 w2.

Lemma load_context_ignore_same :
  load_context_ignore w1 root_dir = load_context_ignore w2 root_dir.
Proof.
  unfold load_context_ignore. rewrite (same_ignore_file _ _ _ _ Hsame). reflexivity.
Qed.

Lemma is_binary_file_same (p : string) :
  p <> output_file -> is_binary_file w1 p = is_binary_file w2 p.
Proof.
  intros Hne. unfold is_binary_file.
  rewrite (same_guess_type _ _ _ _ Hsame), (same_read_chunk _ _ _ _ Hsame p Hne).
  reflexivity.
Qed.

Lemma search_any_same (ps : list string) (s : string) :
  search_any w1 ps s = search_any w2 ps s.
Proof.
  induction ps as [|p ps IH]; [reflexivity|].
  cbn [search_any]. unfold re_search, re_compile.
  rewrite (same_re_extension _ _ _ _ Hsame), IH. reflexivity.
Qed.

Lemma should_include_file_same (p root : string) (excl ign : list string) :
  p <> output_file ->
  should_include_file w1 p root excl ign = should_include_file w2 p root excl ign.
Proof.
  intros Hne. unfold should_include_file.
  rewrite search_any_same, (is_binary_file_same p Hne),
    (same_stat_filter _ _ _ _ Hsame p Hne).
  reflexivity.
Qed.

Lemma get_file_info_same (p : string) :
  p <> output_file -> get_file_info w1 p = get_file_info w2 p.
Proof.
  intros Hne. unfold get_file_info, file_type.
  rewrite (same_stat_info _ _ _ _ Hsame p Hne), (same_guess_type _ _ _ _ Hsame),
    (same_cwd _ _ _ _ Hsame).
  reflexivity.
Qed.

Lemma emit_file_same (st : run_state) (p : string) :
  p <> output_file -> emit_file w1 st p = emit_file w2 st p.
Proof.
  intros Hne. unfold emit_file.
  rewrite (get_file_info_same p Hne), (same_read_text _ _ _ _ Hsame p Hne).
  reflexivity.
Qed.

(** The guard of line 252 keeps the loop from looking at the output file. *)
Lemma process_file_same (root : string) (excl ign : list string)
    (st : run_state) (p : string) :
  process_file w1 root output_file excl ign st p
  = process_file w2 root output_file excl ign st p.
Proof.
  unfold process_file.
  destruct (String.eqb_spec p output_file) as [Heq|Hne]; [reflexivity|].
  rewrite (should_include_file_same p root excl ign Hne).
  destruct (should_include_file w2 p root excl ign) as [[|]|e]; simpl; try reflexivity.
  rewrite (emit_file_same st p Hne). reflexivity.
Qed.

Lemma process_files_same (root : string) (excl ign : list string)
    (files : list string) :
  forall st,
    process_files w1 root output_file excl ign st files
    = process_files w2 root output_file excl ign st files.
Proof.
  induction files as [|p files IH]; intros st; simpl; [reflexivity|].
  rewrite process_file_same.
  destruct (process_file w2 root output_file excl ign st p); [apply IH|reflexivity].
Qed.

Lemma candidates_same (incl : option (list string)) (l : list string) :
  candidates w1 incl l = candidates w2 incl l.
Proof.
  destruct incl as [[|q ps]|]; try reflexivity.
  cbn [candidates]. induction l as [|x l IH]; [reflexivity|].
  cbn [filter_included]. rewrite search_any_same, IH. reflexivity.
Qed.

End Reproducible.

Section Frame.

Local Opaque metadata_block summary_block closing_lines sorted.

Variable w : world.
Variables root_dir output_file : string.
Variables excl ign : list string.

Lemma apply_verdict_prepend (pre : list string) (st : run_state) (p : string)
    (v : verdict) :
  apply_verdict w p v (prepend pre st) = prepend pre (apply_verdict w p v st).
Proof.
  destruct v; simpl; try reflexivity.
  unfold emit_file. destruct (get_file_info w p) as [info|msg].
  - destruct (read_text w p) as [content|msg]; unfold prepend, write, print,
      count_processed, count_skipped; simpl; rewrite <- !app_assoc; reflexivity.
  - reflexivity.
Qed.

(** What the loop does to the state does not depend on what was written
    before it. *)
Lemma process_files_prepend (pre : list string) (files : list string) :
  forall st,
    process_files w root_dir output_file excl ign (prepend pre st) files
    = map_outcome (prepend pre)
        (process_files w root_dir output_file excl ign st files).
Proof.
  induction files as [|p files IH]; intros st; simpl; [reflexivity|].
  rewrite !process_file_verdict.
  destruct (verdict_of w root_dir output_file excl ign p) as [v|e]; simpl.
  - rewrite apply_verdict_prepend. apply IH.
  - reflexivity.
Qed.

End Frame.

Section HeaderAndBody.

Lemma summary_block_prepend (pre : list string) (st : run_state) :
  summary_block (prepend pre st) = summary_block st.
Proof. reflexivity. Qed.

Lemma closing_lines_prepend (output_file : string) (pre : list string)
    (st : run_state) :
  closing_lines output_file (prepend pre st) = closing_lines output_file st.
Proof. reflexivity. Qed.

Lemma write_summary_prepend (pre : list string) (st : run_state) :
  write (prepend pre st) (summary_block st)
  = prepend pre (write st (summary_block st)).
Proof. unfold write, prepend. simpl. rewrite <- app_assoc. reflexivity. Qed.

Local Opaque metadata_block summary_block closing_lines sorted header.

(** A run that has opened its output file is its body behind its header. *)
Lemma create_context_file_body (w : world) (root_dir output_file : string)
    (excl : list string) (incl : option (list string))
    (loaded : list string * list string) :
  load_context_ignore w root_dir = Ok loaded ->
  open_output w output_file = Returns tt ->
  create_context_file w root_dir output_file excl incl
  = map_outcome (prepend (header w root_dir))
      (run_body w root_dir output_file excl incl loaded).
Proof.
  intros Hload Hopen. unfold create_context_file, run_body.
  rewrite Hload. cbv zeta. rewrite Hopen.
  set (st0 := initial_state (opening_lines root_dir loaded)).
  assert (Hst : write st0 (header w root_dir) = prepend (header w root_dir) st0).
  { unfold write, prepend, st0. simpl. rewrite app_nil_r. reflexivity. }
  rewrite Hst.
  destruct (candidates w incl (regular_files w root_dir)) as [files|e]; [|reflexivity].
  rewrite process_files_prepend.
  destruct (process_files w root_dir output_file excl _ st0 (sorted files))
    as [st'|e st']; simpl; [|reflexivity].
  rewrite summary_block_prepend, write_summary_prepend.
  reflexivity.
Qed.

Lemma existsb_perm (f : string -> bool) (l1 l2 : list string) :
  l1 ≡ₚ l2 -> existsb f l1 = existsb f l2.
Proof.
  induction 1 as [|x l1 l2 _ IH|x y l|l1 l2 l3 _ IH1 _ IH2]; simpl.
  - reflexivity.
  - rewrite IH. reflexivity.
  - destruct (f x), (f y); reflexivity.
  - congruence.
Qed.

Lemma filter_perm (f : string -> bool) (l1 l2 : list string) :
  l1 ≡ₚ l2 -> List.filter f l1 ≡ₚ List.filter f l2.
Proof.
  induction 1 as [|x l1 l2 _ IH|x y l|l1 l2 l3 _ IH1 _ IH2]; simpl.
  - reflexivity.
  - destruct (f x); [constructor|]; exact IH.
  - destruct (f x), (f y); try reflexivity. apply perm_swap.
  - etransitivity; eassumption.
Qed.

(** The candidates of two enumerations of the same files are the same
    files, and the include filter raises for both or for none, with the
    same exception. *)
Lemma candidates_perm (w : world) (incl : option (list string)) (l1 l2 : list string) :
  l1 ≡ₚ l2 ->
  (exists f1 f2,
     candidates w incl l1 = Ok f1 /\ candidates w incl l2 = Ok f2 /\ f1 ≡ₚ f2) \/
  (exists e, candidates w incl l1 = Raise e /\ candidates w incl l2 = Raise e).
Proof.
  intros Hp.
  destruct incl as [[|q ps]|]; simpl candidates;
    try solve [left; exists l1, l2; auto].
  destruct (existsb (raises w (q :: ps)) l1) eqn:Hex.
  - right.
    destruct (filter_included_raise w (q :: ps) l1 Hex) as (e1 & He1 & ->).
    rewrite (existsb_perm _ l1 l2 Hp) in Hex.
    destruct (filter_included_raise w (q :: ps) l2 Hex) as (e2 & He2 & ->).
    exists e1. split; [reflexivity|]. congruence.
  - left. rewrite (filter_included_ok w _ l1 Hex).
    rewrite (existsb_perm _ l1 l2 Hp) in Hex.
    rewrite (filter_included_ok w _ l2 Hex).
    eexists _, _. split; [reflexivity|]. split; [reflexivity|].
    apply filter_perm, Hp.
Qed.

Lemma candidates_nodup (w : world) (incl : option (list string))
    (l files : list string) :
  candidates w incl l = Ok files -> NoDup l -> NoDup files.
Proof.
  destruct incl as [[|q ps]|]; simpl candidates; try (intros [= <-]; auto).
  intros Hf. apply filter_included_inv in Hf as [_ ->].
  intros Hnd. apply NoDup_ListNoDup. apply List.NoDup_filter.
  apply NoDup_ListNoDup. exact Hnd.
Qed.

(** The body of the run is the same for two runs on the same tree. *)
Lemma run_body_same (w1 w2 : world) (root_dir output_file : string)
    (excl : list string) (incl : option (list string))
    (loaded : list string * list string) :
  same_tree root_dir output_file w1 w2 ->
  run_body w1 root_dir output_file excl incl loaded
  = run_body w2 root_dir output_file excl incl loaded.
Proof.
  intros Hsame. unfold run_body. cbv zeta.
  rewrite <- (candidates_same w1 w2 root_dir output_file Hsame).
  destruct (candidates_perm w1 incl _ _ (same_files _ _ _ _ Hsame))
    as [(f1 & f2 & -> & -> & Hp)|(e & -> & ->)]; [|reflexivity].
  rewrite (sorted_of_permutation f1 f2 Hp).
  rewrite (process_files_same w1 w2 root_dir output_file Hsame). reflexivity.
Qed.

Lemma in_sorted (files : list string) (p : string) : In p (sorted files) <-> In p files.
Proof.
  split; intros Hp; apply list_elem_of_In; apply list_elem_of_In in Hp.
  - rewrite <- (sorted_perm files). exact Hp.
  - rewrite (sorted_perm files). exact Hp.
Qed.

(** The body is the sequence of the blocks of the candidates that get one,
    in strictly increasing order of the full paths: of all of them,
    followed by the summary, when the run ends normally; of those before
    the file on which the filter raises otherwise. *)
Lemma run_body_blocks (w : world) (root_dir output_file : string)
    (excl : list string) (incl : option (list string))
    (loaded : list string * list string) :
  NoDup (regular_files w root_dir) ->
  exists paths tail,
    out (final (run_body w root_dir output_file excl incl loaded))
    = flat_map (file_writes w) paths ++ tail /\
    StronglySorted str_lt paths /\
    match run_body w root_dir output_file excl incl loaded with
    | Completed st =>
        tail = summary_block st /\
        exists files,
          candidates w incl (regular_files w root_dir) = Ok files /\
          paths ≡ₚ List.filter (has_block w root_dir output_file excl loaded.1) files
    | Aborted e _ =>
        tail = [] /\
        match candidates w incl (regular_files w root_dir) with
        | Raise e' => e = e' /\ paths = []
        | Ok files =>
            exists f,
              In f files /\
              verdict_of w root_dir output_file excl loaded.1 f = Raise e /\
              forall p, In p paths <->
                (In p files /\ str_lt p f /\
                 has_block w root_dir output_file excl loaded.1 p = true)
        end
    end.
Proof.
  intros Hnd. unfold run_body. cbv zeta.
  set (st0 := initial_state (opening_lines root_dir loaded)).
  destruct (candidates w incl (regular_files w root_dir)) as [files|e] eqn:Hc.
  - destruct (process_files_out w root_dir output_file excl loaded.1 (sorted files) st0)
      as (done & rest & Hsplit & Hout & Hrest & Hstop).
    set (blocks := has_block w root_dir output_file excl loaded.1) in *.
    assert (Hsorted : StronglySorted str_lt (sorted files)).
    { apply strongly_sorted_strict; [apply sorted_strongly|].
      rewrite sorted_perm. apply (candidates_nodup w incl _ _ Hc Hnd). }
    exists (List.filter blocks done).
    destruct (process_files w root_dir output_file excl loaded.1 st0 (sorted files))
      as [st'|e st'] eqn:Hrun.
    + exists (summary_block st'). simpl in Hout.
      split; [simpl; rewrite Hout; reflexivity|].
      split.
      { apply strongly_sorted_filter.
        rewrite Hsplit in Hsorted. apply (StronglySorted_app_1_l _ _ _ Hsorted). }
      split; [reflexivity|].
      exists files. split; [reflexivity|].
      rewrite (Hrest st' eq_refl), app_nil_r in Hsplit. rewrite <- Hsplit.
      apply filter_perm, sorted_perm.
    + exists []. simpl in Hout.
      split; [simpl; rewrite Hout, app_nil_r; reflexivity|].
      split.
      { apply strongly_sorted_filter.
        rewrite Hsplit in Hsorted. apply (StronglySorted_app_1_l _ _ _ Hsorted). }
      split; [reflexivity|].
      destruct (Hstop e st' eq_refl) as (f & rest' & -> & Hf).
      exists f. split.
      { apply in_sorted. rewrite Hsplit. apply List.in_or_app. right. left. reflexivity. }
      split; [exact Hf|].
      intros p. rewrite List.filter_In. split.
      * intros [Hp Hb]. split; [|split; [|exact Hb]].
        -- apply in_sorted. rewrite Hsplit. apply List.in_or_app. left. exact Hp.
        -- rewrite Hsplit in Hsorted.
           apply (StronglySorted_app_1_elem_of _ _ _ _ _ Hsorted).
           ++ apply list_elem_of_In. exact Hp.
           ++ apply list_elem_of_In. left. reflexivity.
      * intros (Hp & Hlt & Hb). split; [|exact Hb].
        apply in_sorted in Hp. rewrite Hsplit in Hp.
        apply List.in_app_or in Hp as [Hp|[<-|Hp]]; [exact Hp| |].
        -- exfalso. exact (str_lt_irrefl f Hlt).
        -- exfalso. rewrite Hsplit in Hsorted.
           apply StronglySorted_app_1_r in Hsorted.
           apply StronglySorted_cons in Hsorted as [Hall _].
           rewrite List.Forall_forall in Hall.
           exact (str_lt_irrefl f (str_lt_trans f p f (Hall p Hp) Hlt)).
  - exists [], []. simpl. repeat split; constructor.
Qed.

End HeaderAndBody.

Section TwoRuns.

Local Opaque summary_block.


Lemma same_tree_later (w : world) (root_dir output_file clock : string) :
  same_tree root_dir output_file w (Sample.later w clock).
Proof.
  constructor; try reflexivity. simpl. apply Permutation_rev.
Qed.


End TwoRuns.

(* ===================================================================== *)
(** ** The binary detector and the inclusion filter *)
(* ===================================================================== *)

Section Detector.

Lemma existsb_null (chunk : list ascii) :
  existsb (Ascii.eqb "000"%char) chunk = true <-> In "000"%char chunk.
Proof.
  rewrite List.existsb_exists. split.
  - intros (c & Hc & Heq). apply Ascii.eqb_eq in Heq. subst c. exact Hc.
  - intros Hin. exists "000"%char. split; [exact Hin|apply Ascii.eqb_refl].
Qed.

Lemma is_binary_file_false_inv (w : world) (p : string) :
  is_binary_file w p = false ->
  match guess_type w p with
  | Some mime_type =>
      PyStr.nonempty mime_type = false \/ PyStr.startswith mime_type "text" = true
  | None => True
  end /\
  exists chunk,
    read_chunk w p = Some chunk /\ ~ In "000"%char chunk /\ utf8_valid chunk = true.
Proof.
  unfold is_binary_file. intros H. split.
  - destruct (guess_type w p) as [m|]; [|exact I].
    destruct (PyStr.nonempty m); [|left; reflexivity].
    destruct (PyStr.startswith m "text"); [right; reflexivity|discriminate].
  - destruct (match guess_type w p with Some _ => _ | None => _ end);
      [discriminate|].
    destruct (read_chunk w p) as [chunk|]; [|discriminate].
    exists chunk. split; [reflexivity|].
    destruct (existsb (Ascii.eqb "000"%char) chunk) eqn:Hnull; [discriminate|].
    split.
    + intros Hin. apply existsb_null in Hin. congruence.
    + apply negb_false_iff. exact H.
Qed.

Lemma is_binary_file_false_intro (w : world) (p : string) (chunk : list ascii) :
  match guess_type w p with
  | Some mime_type =>
      PyStr.nonempty mime_type = false \/ PyStr.startswith mime_type "text" = true
  | None => True
  end ->
  read_chunk w p = Some chunk -> ~ In "000"%char chunk -> utf8_valid chunk = true ->
  is_binary_file w p = false.
Proof.
  unfold is_binary_file. intros Hmime Hread Hnull Hutf.
  assert (Hdecl : match guess_type w p with
                  | Some m => PyStr.nonempty m && negb (PyStr.startswith m "text")
                  | None => false
                  end = false).
  { destruct (guess_type w p) as [m|]; [|reflexivity].
    destruct Hmime as [-> | ->]; [reflexivity|apply andb_false_r]. }
  rewrite Hdecl, Hread.
  destruct (existsb (Ascii.eqb "000"%char) chunk) eqn:Hex.
  - exfalso. apply Hnull. apply existsb_null. exact Hex.
  - rewrite Hutf. reflexivity.
Qed.

(** X1: a file passes for text exactly when its MIME type is unknown, empty or
    a text type, the first chunk can be read, holds no null byte and
    decodes as UTF-8. *)
Theorem is_binary_file_false_iff (w : world) (p : string) :
  is_binary_file w p = false <->
  match guess_type w p with
  | Some mime_type =>
      PyStr.nonempty mime_type = false \/ PyStr.startswith mime_type "text" = true
  | None => True
  end /\
  exists chunk,
    read_chunk w p = Some chunk /\ ~ In "000"%char chunk /\ utf8_valid chunk = true.
Proof.
  split.
  - apply is_binary_file_false_inv.
  - intros [Hmime (chunk & Hread & Hnull & Hutf)].
    apply (is_binary_file_false_intro w p chunk); assumption.
Qed.

Lemma utf8_valid_ascii (chunk : list ascii) :
  List.Forall (fun c => nat_of_ascii c <= 127) chunk -> utf8_valid chunk = true.
Proof.
  induction 1 as [|c chunk Hc _ IH]; [reflexivity|].
  simpl. apply Nat.leb_le in Hc. rewrite Hc. exact IH.
Qed.

(** X2: a file whose MIME type is unknown or a text type and whose first chunk
    is made of the ASCII characters 1..127 is not binary. *)
Theorem ascii_chunk_is_text (w : world) (p : string) (chunk : list ascii) :
  match guess_type w p with
  | Some mime_type => PyStr.startswith mime_type "text" = true
  | None => True
  end ->
  read_chunk w p = Some chunk ->
  List.Forall (fun c => 1 <= nat_of_ascii c <= 127) chunk ->
  is_binary_file w p = false.
Proof.
  intros Hmime Hread Hall. apply (is_binary_file_false_intro w p chunk).
  - destruct (guess_type w p); [right; exact Hmime|exact I].
  - exact Hread.
  - intros Hin. rewrite List.Forall_forall in Hall.
    specialize (Hall _ Hin). change (nat_of_ascii "000"%char) with 0 in Hall. lia.
  - apply utf8_valid_ascii. apply (List.Forall_impl _ (P := fun c => 1 <= nat_of_ascii c <= 127));
      [|exact Hall]. intros c Hc. lia.
Qed.

Lemma ascii_chunk_is_text_witness :
  is_binary_file (Sample.tree "/proj" "T0" [("/proj/Makefile", "all:")]%string Absent)
    "/proj/Makefile" = false.
Proof.
  apply (ascii_chunk_is_text _ _ (list_ascii_of_string "all:")).
  - exact I.
  - reflexivity.
  - repeat constructor; simpl; lia.
Defined.

Lemma utf8_invalid_cut (pre : list ascii) (b : ascii) :
  List.Forall (fun c => nat_of_ascii c <= 127) pre ->
  128 <= nat_of_ascii b ->
  utf8_valid (pre ++ [b]) = false.
Proof.
  intros Hpre Hb. induction Hpre as [|c pre Hc _ IH].
  - simpl. destruct (nat_of_ascii b <=? 127) eqn:Hle; [|reflexivity].
    apply Nat.leb_le in Hle. lia.
  - simpl. apply Nat.leb_le in Hc. rewrite Hc. exact IH.
Qed.

(** X3: a chunk of ASCII text that ends in the middle of a multi-byte
    character -- its last byte is 128 or more -- does not decode: the file is
    taken for binary, whatever follows the chunk in the file. *)
Theorem chunk_cut_in_character_is_binary (w : world) (p : string)
    (pre : list ascii) (b : ascii) :
  read_chunk w p = Some (pre ++ [b]) ->
  List.Forall (fun c => nat_of_ascii c <= 127) pre ->
  128 <= nat_of_ascii b ->
  is_binary_file w p = true.
Proof.
  intros Hread Hpre Hb.
  destruct (is_binary_file w p) eqn:Hbin; [reflexivity|].
  apply is_binary_file_false_inv in Hbin as [_ (chunk & Hc & _ & Hutf)].
  rewrite Hread in Hc. injection Hc as <-.
  rewrite (utf8_invalid_cut pre b Hpre Hb) in Hutf. discriminate.
Qed.

Lemma chunk_cut_in_character_is_binary_witness :
  is_binary_file
    (Sample.tree "/proj" "T0"
       [("/proj/notes", String "c" (String "a" (String "f" (String "195"%char EmptyString))))]
       Absent)
    "/proj/notes" = true.
Proof.
  apply (chunk_cut_in_character_is_binary _ _
           ["c"%char; "a"%char; "f"%char] "195"%char).
  - reflexivity.
  - repeat constructor; apply Nat.leb_le; reflexivity.
  - apply Nat.leb_le. reflexivity.
Defined.

Lemma should_include_true_inv (w : world) (p root_dir : string)
    (excl ign : list string) :
  should_include_file w p root_dir excl ign = Ok true ->
  search_any w excl p = Ok false /\
  is_ignored_by_patterns p root_dir ign = false /\
  is_binary_file w p = false /\
  exists stats, stat_filter w p = Returns stats /\ (st_size stats <= 1000000)%N.
Proof.
  unfold should_include_file.
  destruct (search_any w excl p) as [[|]|e]; simpl; try discriminate.
  destruct (is_ignored_by_patterns p root_dir ign); [discriminate|].
  destruct (is_binary_file w p); [discriminate|].
  destruct (stat_filter w p) as [stats|msg]; [|discriminate].
  destruct (1000000 <? st_size stats)%N eqn:Hsize; [discriminate|].
  intros _. repeat split. exists stats. split; [reflexivity|].
  apply N.ltb_ge. exact Hsize.
Qed.

(** X4: the inclusion filter says yes exactly when the four checks pass: no
    exclude regex matches, no ignore pattern matches, the file is not
    binary, and its size is at most 1,000,000 bytes. *)
Theorem should_include_file_true_iff (w : world) (p root_dir : string)
    (excl ign : list string) :
  should_include_file w p root_dir excl ign = Ok true <->
  search_any w excl p = Ok false /\
  is_ignored_by_patterns p root_dir ign = false /\
  is_binary_file w p = false /\
  exists stats, stat_filter w p = Returns stats /\ (st_size stats <= 1000000)%N.
Proof.
  split; [apply should_include_true_inv|].
  unfold should_include_file.
  intros (-> & -> & -> & stats & -> & Hsize). simpl.
  apply N.ltb_ge in Hsize. rewrite Hsize. reflexivity.
Qed.

(** X5: a file whose MIME type is known and is not a text type is never
    included, whatever it contains: nothing is written for it and it is not
    counted as processed. *)
Theorem declared_binary_never_included (w : world) (root_dir output_file : string)
    (excl ign : list string) (p mime_type : string) (st st' : run_state) :
  guess_type w p = Some mime_type ->
  PyStr.nonempty mime_type = true ->
  PyStr.startswith mime_type "text" = false ->
  process_file w root_dir output_file excl ign st p = Ok st' ->
  out st' = out st /\ processed_files st' = processed_files st.
Proof.
  intros Hm Hne Htext.
  assert (Hno : should_include_file w p root_dir excl ign <> Ok true).
  { intros Hinc. apply should_include_true_inv in Hinc as (_ & _ & Hbin & _).
    apply is_binary_file_false_inv in Hbin as [Hmime _].
    rewrite Hm in Hmime. destruct Hmime; congruence. }
  unfold process_file.
  destruct (String.eqb p output_file); [intros [= <-]; auto|].
  destruct (should_include_file w p root_dir excl ign) as [[|]|e]; simpl;
    [congruence| |discriminate].
  destruct (is_ignored_by_patterns p root_dir ign); intros [= <-]; auto.
Qed.

Lemma declared_binary_never_included_witness :
  out (count_skipped (initial_state [])) = out (initial_state []) /\
  processed_files (count_skipped (initial_state [])) = processed_files (initial_state []).
Proof.
  apply (declared_binary_never_included
           (Sample.tree "/proj" "T0" [("/proj/logo.png", "plain text")]%string Absent)
           "/proj" "/tmp/context.txt" Argparse.default_exclude []
           "/proj/logo.png" "image/png" (initial_state [])
           (count_skipped (initial_state []))).
  - reflexivity.
  - reflexivity.
  - reflexivity.
  - vm_compute. reflexivity.
Defined.

(** X6: the TYPE line of an included file is one of four tags: a file with a
    binary MIME type is rejected by the filter before it is classified. *)
Theorem included_file_type_tags (w : world) (p root_dir : string)
    (excl ign : list string) (info : file_info) :
  should_include_file w p root_dir excl ign = Ok true ->
  guess_type w p <> Some ""%string ->
  get_file_info w p = Returns info ->
  In (type info) ["code"; "documentation"; "text"; "unknown"]%string.
Proof.
  intros Hinc Hempty Hinfo.
  apply should_include_true_inv in Hinc as (_ & _ & Hbin & _).
  apply is_binary_file_false_inv in Hbin as [Hmime _].
  unfold get_file_info in Hinfo.
  destruct (stat_info w p) as [stats|msg]; [|discriminate].
  injection Hinfo as <-. cbn [type]. unfold file_type.
  destruct (guess_type w p) as [m|] eqn:Hnone.
  - assert (Htext : PyStr.startswith m "text" = true).
    { destruct Hmime as [Hne|Ht]; [|exact Ht].
      destruct m; [congruence|discriminate]. }
    rewrite Htext.
    destruct (PyStr.contains "markdown" m); [simpl; auto 6|].
    destruct (PyStr.mem _ _); simpl; auto 6.
  - pose proof (file_type_never_architecture_decision w p) as Hadr.
    unfold file_type in Hadr. rewrite Hnone in Hadr.
    destruct (PyStr.mem (PyStr.suffix p) [".py"; _; _; _; _; _; _; _; _; _]);
      [simpl; auto 6|].
    destruct (PyStr.mem (PyStr.suffix p) [".md"; _; _; _]); [simpl; auto 6|].
    destruct (PyStr.mem (PyStr.lower (PyStr.name p)) _); [simpl; auto 6|].
    destruct (PyStr.contains "adr" (PyStr.lower p) && String.eqb (PyStr.suffix p) ".md");
      [congruence|simpl; auto 6].
Qed.

Lemma included_file_type_tags_witness :
  In "code"%string ["code"; "documentation"; "text"; "unknown"]%string.
Proof.
  apply (included_file_type_tags
           (Sample.tree "/proj" "T0" Sample.two_files Absent)
           "/proj/a.py" "/proj" Argparse.default_exclude []
           {| path := "/proj/a.py"; relative_path := "a.py"; size_bytes := 8;
              last_modified := "2024-05-01T12:00:00"; type := "code";
              extension := ".py"; filename := "a.py" |}).
  - vm_compute. reflexivity.
  - discriminate.
  - vm_compute. reflexivity.
Defined.

End Detector.


(* ===================================================================== *)
(** ** Strings: reversal, last character, paths below a root *)
(* ===================================================================== *)

Section StringFacts.

Lemma string_app_nil_r (s : string) : s +:+ "" = s.
Proof.
  induction s as [|c s IH]; [reflexivity|].
  change (String c (s +:+ "") = String c s). f_equal. exact IH.
Qed.

Lemma startswith_refl (s : string) : PyStr.startswith s s = true.
Proof.
  pose proof (startswith_app s "") as H. rewrite string_app_nil_r in H. exact H.
Qed.

Lemma string_length_app (a b : string) :
  String.length (a +:+ b) = String.length a + String.length b.
Proof.
  induction a as [|c a IH]; [reflexivity|].
  change (S (String.length (a +:+ b)) = S (String.length a + String.length b)).
  f_equal. exact IH.
Qed.

Lemma rev_acc_app (s acc : string) :
  PyStr.rev_acc s acc = PyStr.rev s +:+ acc.
Proof.
  unfold PyStr.rev. revert acc.
  induction s as [|c s IH]; intros acc; [reflexivity|].
  simpl. rewrite (IH (String c acc)), (IH (String c EmptyString)).
  rewrite <- string_app_assoc. reflexivity.
Qed.

Lemma rev_cons (c : ascii) (s : string) :
  PyStr.rev (String c s) = PyStr.rev s +:+ String c EmptyString.
Proof. unfold PyStr.rev at 1. simpl. apply rev_acc_app. Qed.

Lemma rev_snoc (s : string) (c : ascii) :
  PyStr.rev (s +:+ String c EmptyString) = String c (PyStr.rev s).
Proof.
  induction s as [|x s IH]; [reflexivity|].
  change (PyStr.rev (String x (s +:+ String c EmptyString))
          = String c (PyStr.rev (String x s))).
  rewrite !rev_cons, IH. reflexivity.
Qed.

Lemma rev_involutive (s : string) : PyStr.rev (PyStr.rev s) = s.
Proof.
  induction s as [|c s IH]; [reflexivity|].
  rewrite rev_cons, rev_snoc, IH. reflexivity.
Qed.

(** A string that ends with a slash is some text followed by the slash. *)
Lemma endswith_slash_inv (s : string) :
  PyStr.endswith s "/" = true -> exists q, s = q +:+ "/".
Proof.
  unfold PyStr.endswith. change (PyStr.rev "/") with "/"%string.
  intros H. destruct (PyStr.rev s) as [|c r] eqn:Hrev; cbn [String.prefix] in H;
    [discriminate|].
  destruct (ascii_dec "/" c) as [<-|]; [|discriminate].
  exists (PyStr.rev r).
  rewrite <- (rev_involutive s), Hrev, rev_cons. reflexivity.
Qed.

Lemma endswith_slash_app (q : string) : PyStr.endswith (q +:+ "/") "/" = true.
Proof.
  unfold PyStr.endswith. rewrite rev_snoc. change (PyStr.rev "/") with "/"%string.
  cbn [String.prefix].
  destruct (ascii_dec "/" "/") as [_|Hne]; [|contradiction].
  destruct (PyStr.rev q); reflexivity.
Qed.

Lemma drop_last_snoc (q : string) (c : ascii) :
  PyStr.drop_last (q +:+ String c EmptyString) = q.
Proof.
  unfold PyStr.drop_last. rewrite string_length_app. simpl String.length.
  replace (String.length q + 1 - 1) with (String.length q) by lia.
  induction q as [|x q IH]; [reflexivity|].
  change (String x (String.substring 0 (String.length q) (q +:+ String c EmptyString))
          = String x q).
  f_equal. exact IH.
Qed.

Lemma drop_app (a b : string) : PyStr.drop (String.length a) (a +:+ b) = b.
Proof.
  induction a as [|c a IH]; [destruct b; reflexivity|]. exact IH.
Qed.

Lemma string_app_neq (a b : string) : b <> ""%string -> a +:+ b <> a.
Proof.
  intros Hb Heq. apply (f_equal String.length) in Heq.
  rewrite string_length_app in Heq. destruct b; [congruence|]. simpl in Heq. lia.
Qed.

(** The path below the root of a file placed under it. *)
Lemma relative_to_join (root_dir rel : string) :
  root_dir <> "/"%string ->
  PyStr.relative_to (root_dir +:+ "/" +:+ rel) root_dir = Some rel.
Proof.
  intros Hroot. unfold PyStr.relative_to.
  destruct (String.eqb_spec (root_dir +:+ "/" +:+ rel) root_dir) as [Heq|_].
  { exfalso. apply (string_app_neq root_dir ("/" +:+ rel)); [|exact Heq].
    change ("/" +:+ rel) with (String "/"%char rel). discriminate. }
  destruct (String.eqb_spec root_dir "/") as [Heq|_]; [contradiction|].
  rewrite (string_app_assoc root_dir "/" rel).
  pose proof (startswith_app (root_dir +:+ "/") rel) as Hpre.
  unfold PyStr.startswith in Hpre. rewrite Hpre.
  replace (String.length root_dir + 1) with (String.length (root_dir +:+ "/"))
    by (rewrite string_length_app; reflexivity).
  rewrite drop_app. reflexivity.
Qed.

End StringFacts.

(* ===================================================================== *)
(** ** The ignore-pattern matcher *)
(* ===================================================================== *)

Section Matcher.

Lemma is_ignored_rel (p root_dir : string) (ign : list string) (pat : string) :
  In pat ign ->
  is_ignored_by_patterns p root_dir ign
  = matches_any_pattern (rel_path_of p root_dir) ign.
Proof. destruct ign; [intros []|reflexivity]. Qed.

Lemma matches_any_pattern_dir (rel d : string) (ign : list string) :
  In (d +:+ "/") ign ->
  rel = d \/ PyStr.startswith rel (d +:+ "/") = true ->
  matches_any_pattern rel ign = true.
Proof.
  intros Hin Hrel. induction ign as [|pat ign IH]; [destruct Hin|].
  simpl. destruct Hin as [->|Hin].
  - rewrite endswith_slash_app, drop_last_snoc.
    destruct Hrel as [->|Hpre].
    + rewrite String.eqb_refl. reflexivity.
    + rewrite Hpre, orb_true_r. reflexivity.
  - destruct (PyStr.endswith pat "/").
    + destruct (_ || _); [reflexivity|apply IH, Hin].
    + destruct (Fnmatch.fnmatch rel pat); [reflexivity|].
      destruct (String.eqb rel pat); [reflexivity|apply IH, Hin].
Qed.

Lemma matches_any_pattern_exact (rel : string) (ign : list string) :
  In rel ign -> matches_any_pattern rel ign = true.
Proof.
  intros Hin. induction ign as [|q ign IH]; [destruct Hin|].
  simpl. destruct Hin as [->|Hin].
  - destruct (PyStr.endswith rel "/") eqn:Hend.
    + destruct (endswith_slash_inv rel Hend) as [d ->].
      rewrite drop_last_snoc, startswith_refl, orb_true_r. reflexivity.
    + destruct (Fnmatch.fnmatch rel rel); [reflexivity|].
      rewrite String.eqb_refl. reflexivity.
  - destruct (PyStr.endswith q "/").
    + destruct (_ || _); [reflexivity|apply IH, Hin].
    + destruct (Fnmatch.fnmatch rel q); [reflexivity|].
      destruct (String.eqb rel q); [reflexivity|apply IH, Hin].
Qed.

Lemma matches_any_pattern_fnmatch (rel pat : string) (ign : list string) :
  In pat ign ->
  PyStr.endswith pat "/" = false ->
  Fnmatch.fnmatch rel pat = true ->
  matches_any_pattern rel ign = true.
Proof.
  intros Hin Hend Hm. induction ign as [|q ign IH]; [destruct Hin|].
  simpl. destruct Hin as [->|Hin].
  - rewrite Hend, Hm. reflexivity.
  - destruct (PyStr.endswith q "/").
    + destruct (_ || _); [reflexivity|apply IH, Hin].
    + destruct (Fnmatch.fnmatch rel q); [reflexivity|].
      destruct (String.eqb rel q); [reflexivity|apply IH, Hin].
Qed.

Lemma rel_path_of_join (root_dir rel : string) :
  root_dir <> "/"%string -> rel_path_of (root_dir +:+ "/" +:+ rel) root_dir = rel.
Proof. intros Hroot. unfold rel_path_of. rewrite relative_to_join; auto. Qed.

(** X7: a pattern equal to the path of a file below the root ignores that file,
    also when the pattern holds shell metacharacters that keep it from
    matching itself as a glob. *)
Theorem exact_path_pattern_ignores (p root_dir : string) (ign : list string) :
  In (rel_path_of p root_dir) ign ->
  is_ignored_by_patterns p root_dir ign = true.
Proof.
  intros Hin. rewrite (is_ignored_rel p root_dir ign _ Hin).
  apply matches_any_pattern_exact, Hin.
Qed.

Lemma exact_path_pattern_ignores_witness :
  Fnmatch.fnmatch "[x]" "[x]" = false /\
  is_ignored_by_patterns "/proj/[x]" "/proj" ["*.log"; "[x]"]%string = true.
Proof.
  split; [reflexivity|].
  apply exact_path_pattern_ignores. vm_compute. tauto.
Defined.

(** X8: a directory pattern [d/] ignores every file below the directory [d] of
    the root, at any depth; such a file is counted as ignored and nothing is
    written for it, whether or not an exclude regex matches it as well. *)
Theorem directory_pattern_ignores_below (w : world) (root_dir output_file : string)
    (excl ign : list string) (d below : string) (st : run_state) (b : bool) :
  root_dir <> "/"%string ->
  In (d +:+ "/") ign ->
  root_dir +:+ "/" +:+ d +:+ "/" +:+ below <> output_file ->
  search_any w excl (root_dir +:+ "/" +:+ d +:+ "/" +:+ below) = Ok b ->
  is_ignored_by_patterns (root_dir +:+ "/" +:+ d +:+ "/" +:+ below) root_dir ign = true /\
  process_file w root_dir output_file excl ign st
    (root_dir +:+ "/" +:+ d +:+ "/" +:+ below)
  = Ok (count_ignored st).
Proof.
  intros Hroot Hin Hout Hsearch.
  assert (Hign : is_ignored_by_patterns (root_dir +:+ "/" +:+ d +:+ "/" +:+ below)
                   root_dir ign = true).
  { rewrite (is_ignored_rel _ root_dir ign _ Hin), rel_path_of_join by exact Hroot.
    apply (matches_any_pattern_dir _ d ign Hin). right.
    rewrite (string_app_assoc d "/" below). apply startswith_app. }
  split; [exact Hign|].
  apply String.eqb_neq in Hout. unfold process_file. rewrite Hout.
  destruct b.
  - rewrite (should_include_excluded w _ root_dir excl ign Hsearch). simpl.
    rewrite Hign. reflexivity.
  - rewrite (should_include_ignored w _ root_dir excl ign Hsearch Hign). simpl.
    rewrite Hign. reflexivity.
Qed.

Lemma directory_pattern_ignores_below_witness :
  is_ignored_by_patterns "/proj/node_modules/pkg/lib/index.js" "/proj"
    ["node_modules/"%string] = true /\
  process_file (Sample.tree "/proj" "T0" [] Absent) "/proj" "/tmp/context.txt"
    Argparse.default_exclude ["node_modules/"%string] (initial_state [])
    "/proj/node_modules/pkg/lib/index.js"
  = Ok (count_ignored (initial_state [])).
Proof.
  apply (directory_pattern_ignores_below (Sample.tree "/proj" "T0" [] Absent)
           "/proj" "/tmp/context.txt" Argparse.default_exclude
           ["node_modules/"%string] "node_modules" "pkg/lib/index.js"
           (initial_state []) true).
  - discriminate.
  - left. reflexivity.
  - discriminate.
  - vm_compute. reflexivity.
Defined.

Lemma tokens_plain (l : list ascii) :
  List.Forall (fun c => c <> "*"%char /\ c <> "?"%char /\ c <> "["%char) l ->
  forall n, length l <= n -> Fnmatch.tokens n l = map Fnmatch.TLit l.
Proof.
  induction 1 as [|c l (Hs & Hq & Hb) _ IH]; intros n Hn.
  - destruct n; reflexivity.
  - destruct n as [|n]; [simpl in Hn; lia|].
    simpl. apply Ascii.eqb_neq in Hs, Hq, Hb. rewrite Hs, Hq, Hb.
    rewrite IH by (simpl in Hn; lia). reflexivity.
Qed.

Lemma tmatch_literal (l : list ascii) :
  Fnmatch.tmatch (map Fnmatch.TLit l) l = true.
Proof.
  induction l as [|c l IH]; [reflexivity|].
  simpl. rewrite Ascii.eqb_refl. exact IH.
Qed.

Lemma tmatch_star (ps : list Fnmatch.token) (a s : list ascii) :
  Fnmatch.tmatch ps s = true -> Fnmatch.tmatch (Fnmatch.TStar :: ps) (a ++ s) = true.
Proof.
  intros Hs. induction a as [|x a IH]; simpl in *.
  - destruct s; rewrite Hs; reflexivity.
  - rewrite IH. apply orb_true_r.
Qed.

Lemma fnmatch_star_suffix (a lit : string) :
  plain lit -> Fnmatch.fnmatch (a +:+ lit) ("*" +:+ lit) = true.
Proof.
  intros Hplain. unfold Fnmatch.fnmatch.
  change ("*" +:+ lit) with (String "*"%char lit).
  rewrite list_ascii_of_string_app.
  cbn [list_ascii_of_string length Fnmatch.tokens].
  change (Ascii.eqb "*" "*") with true. cbv iota.
  rewrite (tokens_plain _ Hplain) by lia.
  apply tmatch_star, tmatch_literal.
Qed.

(** X9: a pattern made of a star and plain text, such as [*.log], ignores every
    file whose path below the root ends with that text: the star also runs
    over the separators between directories. *)
Theorem star_pattern_ignores_at_any_depth (root_dir lit : string)
    (ign : list string) (a : string) :
  root_dir <> "/"%string ->
  plain lit ->
  PyStr.endswith ("*" +:+ lit) "/" = false ->
  In ("*" +:+ lit) ign ->
  Fnmatch.fnmatch (a +:+ lit) ("*" +:+ lit) = true /\
  is_ignored_by_patterns (root_dir +:+ "/" +:+ a +:+ lit) root_dir ign = true.
Proof.
  intros Hroot Hplain Hend Hin.
  pose proof (fnmatch_star_suffix a lit Hplain) as Hm.
  split; [exact Hm|].
  rewrite (is_ignored_rel _ root_dir ign _ Hin), rel_path_of_join by exact Hroot.
  apply (matches_any_pattern_fnmatch _ ("*" +:+ lit) ign Hin Hend Hm).
Qed.

Lemma star_pattern_ignores_at_any_depth_witness :
  Fnmatch.fnmatch "logs/2024/app.log" "*.log" = true /\
  is_ignored_by_patterns "/proj/logs/2024/app.log" "/proj" ["*.log"%string] = true.
Proof.
  apply (star_pattern_ignores_at_any_depth "/proj" ".log" ["*.log"%string]
           "logs/2024/app").
  - discriminate.
  - unfold plain. repeat constructor; discriminate.
  - reflexivity.
  - left. reflexivity.
Defined.

End Matcher.


(* ===================================================================== *)
(** ** The command line as a whole *)
(* ===================================================================== *)

Section CommandLine.

Import Argparse.

Lemma add_values_add (attr : option (list string)) (l1 l2 : list string) :
  add_values (add_values attr l1) l2 = add_values attr (l1 ++ l2).
Proof.
  destruct l1 as [|x l1]; [reflexivity|].
  destruct l2 as [|y l2]; simpl.
  - rewrite app_nil_r. reflexivity.
  - rewrite <- app_assoc. reflexivity.
Qed.

Lemma supplied_includes_cons (f : flag) (argv : list flag) :
  supplied_includes (f :: argv) = flag_includes f ++ supplied_includes argv.
Proof. destruct f; reflexivity. Qed.

Lemma last_directory_cons (cur : string) (f : flag) (argv : list flag) :
  last_directory cur (f :: argv) = last_directory (last_directory cur [f]) argv.
Proof. destruct f; reflexivity. Qed.

Lemma last_output_cons (cur : string) (f : flag) (argv : list flag) :
  last_output cur (f :: argv) = last_output (last_output cur [f]) argv.
Proof. destruct f; reflexivity. Qed.

Lemma take_flag_full (ns : namespace) (h : store) (f : flag) (ex : list string) :
  deref h (exclude ns) = Some ex ->
  include_bound ns h ->
  deref (take_flag (ns, h) f).2 (exclude (take_flag (ns, h) f).1)
    = Some (ex ++ flag_excludes f) /\
  deref (take_flag (ns, h) f).2 (include (take_flag (ns, h) f).1)
    = add_values (deref h (include ns)) (flag_includes f) /\
  include_bound (take_flag (ns, h) f).1 (take_flag (ns, h) f).2 /\
  directory (take_flag (ns, h) f).1 = last_directory (directory ns) [f] /\
  output (take_flag (ns, h) f).1 = last_output (output ns) [f].
Proof.
  intros Hex Hinc. unfold include_bound in *.
  destruct f as [v|v|v|v]; unfold take_flag.
  - simpl. rewrite app_nil_r. auto.
  - simpl. rewrite app_nil_r. auto.
  - unfold append_action.
    pose proof (alloc_lookup h (copy_items h (exclude ns) ++ [v])) as Hl.
    pose proof (fun l x => alloc_keeps h (copy_items h (exclude ns) ++ [v]) l x) as Hk.
    destruct (alloc h (copy_items h (exclude ns) ++ [v])) as [a h'].
    simpl in *. rewrite Hl.
    destruct (exclude ns) as [l|]; simpl in Hex; [|discriminate].
    simpl. rewrite Hex. simpl. split; [reflexivity|].
    destruct (include ns) as [li|]; simpl in *.
    + destruct Hinc as [Hinc|[x Hx]]; [discriminate|].
      rewrite (Hk li x Hx). rewrite Hx. eauto.
    + auto.
  - unfold append_action.
    pose proof (alloc_lookup h (copy_items h (include ns) ++ [v])) as Hl.
    pose proof (fun l x => alloc_keeps h (copy_items h (include ns) ++ [v]) l x) as Hk.
    destruct (alloc h (copy_items h (include ns) ++ [v])) as [a h'].
    simpl in *. rewrite Hl, app_nil_r.
    destruct (exclude ns) as [l|]; simpl in Hex; [|discriminate].
    simpl. rewrite (Hk l ex Hex).
    split; [reflexivity|]. split; [|eauto].
    destruct (include ns) as [li|]; reflexivity.
Qed.

Lemma fold_take_flag_full (argv : list flag) :
  forall (ns : namespace) (h : store) (ex : list string),
    deref h (exclude ns) = Some ex ->
    include_bound ns h ->
    deref (fold_left take_flag argv (ns, h)).2
          (exclude (fold_left take_flag argv (ns, h)).1)
      = Some (ex ++ supplied_excludes argv) /\
    deref (fold_left take_flag argv (ns, h)).2
          (include (fold_left take_flag argv (ns, h)).1)
      = add_values (deref h (include ns)) (supplied_includes argv) /\
    directory (fold_left take_flag argv (ns, h)).1 = last_directory (directory ns) argv /\
    output (fold_left take_flag argv (ns, h)).1 = last_output (output ns) argv.
Proof.
  induction argv as [|f argv IH]; intros ns h ex Hex Hinc.
  - simpl. rewrite app_nil_r. auto.
  - cbn [fold_left].
    rewrite supplied_excludes_cons, supplied_includes_cons.
    rewrite (last_directory_cons (directory ns)), (last_output_cons (output ns)).
    destruct (take_flag_full ns h f ex Hex Hinc) as (Hex' & Hin' & Hb' & Hd' & Ho').
    destruct (take_flag (ns, h) f) as [ns' h'] eqn:Hf. cbn [fst snd] in *.
    destruct (IH ns' h' _ Hex' Hb') as (H1 & H2 & H3 & H4).
    rewrite H1, H2, H3, H4, Hin', Hd', Ho', add_values_add, app_assoc.
    auto.
Qed.

(** X10: what [main] runs: the directory and the output of the last [-d] and
    [-o] (the current directory and [gemini_context.txt] without them), the
    default exclude patterns followed by those of [-e], and the patterns of
    [-i] in order -- no include filter at all when there is no [-i]. *)
Theorem main_runs_on_parsed_options (w : world) (argv : list flag) :
  main w argv
  = create_context_file w
      (resolve w (last_directory "." argv))
      (last_output "gemini_context.txt" argv)
      (default_exclude ++ supplied_excludes argv)
      (match supplied_includes argv with
       | [] => None
       | v :: vs => Some (v :: vs)
       end).
Proof.
  unfold main.
  pose proof (alloc_lookup ∅ default_exclude) as Hl.
  unfold make_parser.
  destruct (alloc ∅ default_exclude) as [dflt h0]. simpl in Hl.
  unfold parse_args.
  destruct (fold_take_flag_full argv
              {| directory := "."; output := "gemini_context.txt";
                 exclude := Some dflt; include := None |} h0 default_exclude)
    as (Hex & Hin & Hd & Ho).
  - exact Hl.
  - left. reflexivity.
  - destruct (fold_left take_flag argv _) as [args h']. simpl in *.
    rewrite Hex, Hin, Hd, Ho. simpl.
    destruct (supplied_includes argv); reflexivity.
Qed.

End CommandLine.


(* ===================================================================== *)
(** ** What a finished run has counted and written *)
(* ===================================================================== *)

Section Totals.

Local Opaque metadata_block summary_block closing_lines sorted header.

Variable w : world.
Variables root_dir output_file : string.
Variables excl ign : list string.

Lemma process_file_totals (st st' : run_state) (p : string) :
  process_file w root_dir output_file excl ign st p = Ok st' ->
  processed_files st'
  = (processed_files st
     + N.of_nat (length (omap (processed_size w root_dir output_file excl ign) [p])))%N /\
  total_size st'
  = (total_size st
     + sum_N (omap (processed_size w root_dir output_file excl ign) [p]))%N.
Proof.
  rewrite process_file_verdict. cbn [omap list_omap]. unfold processed_size.
  destruct (verdict_of w root_dir output_file excl ign p) as [v|e]; simpl;
    [|discriminate].
  intros [= <-]. destruct v; simpl; try (split; lia).
  unfold emit_file.
  destruct (get_file_info w p) as [info|msg]; [|simpl; split; lia].
  destruct (read_text w p) as [content|msg]; simpl; split; lia.
Qed.

Lemma process_files_totals (files : list string) :
  forall st st',
    process_files w root_dir output_file excl ign st files = Completed st' ->
    processed_files st'
    = (processed_files st
       + N.of_nat (length (omap (processed_size w root_dir output_file excl ign) files)))%N /\
    total_size st'
    = (total_size st
       + sum_N (omap (processed_size w root_dir output_file excl ign) files))%N.
Proof.
  induction files as [|p files IH]; intros st st' Hrun.
  - simpl in Hrun. injection Hrun as <-. simpl. split; lia.
  - simpl in Hrun.
    destruct (process_file w root_dir output_file excl ign st p) as [st1|e] eqn:Hp;
      [|discriminate].
    apply process_file_totals in Hp as [Hp1 Hp2].
    apply IH in Hrun as [Hr1 Hr2].
    rewrite Hr1, Hr2, Hp1, Hp2. clear.
    change (p :: files) with ([p] ++ files). rewrite omap_app.
    cbn [omap list_omap].
    destruct (processed_size w root_dir output_file excl ign p) as [n|]; simpl;
      split; lia.
Qed.

End Totals.

Section FinishedRun.

Local Opaque metadata_block summary_block closing_lines sorted header.

(** X11: in a run that reaches the summary, [Files processed] is the number of
    candidates whose block was written with its content, and [Total size]
    is the sum of the [stat] sizes of those files. *)
Theorem summary_totals (w : world) (root_dir output_file : string)
    (excl : list string) (incl : option (list string)) (st : run_state) :
  create_context_file w root_dir output_file excl incl = Completed st ->
  exists loaded files,
    load_context_ignore w root_dir = Ok loaded /\
    candidates w incl (regular_files w root_dir) = Ok files /\
    processed_files st
    = N.of_nat (length (omap (processed_size w root_dir output_file excl loaded.1)
                          (sorted files))) /\
    total_size st
    = sum_N (omap (processed_size w root_dir output_file excl loaded.1)
               (sorted files)).
Proof.
  intros Hrun.
  apply create_context_file_completed in Hrun
    as (loaded & files & st' & Hload & _ & Hc & Hloop & ->).
  exists loaded, files. split; [exact Hload|]. split; [exact Hc|].
  apply process_files_totals in Hloop as [H1 H2]. simpl in *.
  rewrite H1, H2. split; lia.
Qed.

Lemma summary_totals_witness :
  exists files,
    candidates (Sample.tree "/proj" "T0" Sample.two_files Absent) None
      (regular_files (Sample.tree "/proj" "T0" Sample.two_files Absent) "/proj")
    = Ok files /\
    processed_files
      (final (create_context_file (Sample.tree "/proj" "T0" Sample.two_files Absent)
                "/proj" "/tmp/context.txt" Argparse.default_exclude None))
    = N.of_nat (length (omap (processed_size
                                (Sample.tree "/proj" "T0" Sample.two_files Absent)
                                "/proj" "/tmp/context.txt" Argparse.default_exclude [])
                          (sorted files))).
Proof.
  destruct (summary_totals (Sample.tree "/proj" "T0" Sample.two_files Absent)
              "/proj" "/tmp/context.txt" Argparse.default_exclude None
              (final (create_context_file
                        (Sample.tree "/proj" "T0" Sample.two_files Absent)
                        "/proj" "/tmp/context.txt" Argparse.default_exclude None)))
    as (loaded & files & Hload & Hc & Hn & _).
  - vm_compute. reflexivity.
  - injection Hload as <-. exists files. split; [exact Hc|exact Hn].
Defined.

(** X12: a block is written only for a file that is not the output path, that no
    exclude regex and no ignore pattern matches, that is not binary and that
    is at most 1,000,000 bytes long: the output is the header, the blocks of
    such files, and then nothing or the summary. *)
Theorem blocks_only_for_included_files (w : world) (root_dir output_file : string)
    (excl : list string) (incl : option (list string))
    (loaded : list string * list string) :
  load_context_ignore w root_dir = Ok loaded ->
  open_output w output_file = Returns tt ->
  exists paths tail,
    out (final (create_context_file w root_dir output_file excl incl))
    = header w root_dir ++ flat_map (file_writes w) paths ++ tail /\
    (tail = [] \/ exists st, tail = summary_block st) /\
    List.Forall
      (fun p =>
         p <> output_file /\
         search_any w excl p = Ok false /\
         is_ignored_by_patterns p root_dir loaded.1 = false /\
         is_binary_file w p = false /\
         exists stats, stat_filter w p = Returns stats /\ (st_size stats <= 1000000)%N)
      paths.
Proof.
  intros Hload Hopen. rewrite (create_context_file_body w _ _ _ _ loaded Hload Hopen).
  unfold run_body. cbv zeta.
  set (st0 := initial_state (opening_lines root_dir loaded)).
  destruct (candidates w incl (regular_files w root_dir)) as [files|e].
  - destruct (process_files_out w root_dir output_file excl
                loaded.1 (sorted files) st0)
      as (done & rest & Hsplit & Hout & _).
    exists (List.filter (has_block w root_dir output_file excl loaded.1) done).
    exists (match process_files w root_dir output_file excl
                    loaded.1 st0 (sorted files) with
            | Completed st' => summary_block st'
            | Aborted _ _ => []
            end).
    split; [|split].
    + destruct (process_files w root_dir output_file excl _ st0 (sorted files))
        as [st'|e st']; simpl in *; rewrite Hout; [reflexivity|].
      rewrite app_nil_r. reflexivity.
    + destruct (process_files w root_dir output_file excl _ st0 (sorted files));
        eauto.
    + apply List.Forall_forall. intros p Hp.
      apply List.filter_In in Hp as [_ Hb].
      unfold has_block, verdict_of in Hb.
      destruct (String.eqb_spec p output_file) as [Heq|Hne]; [discriminate|].
      split; [exact Hne|].
      apply should_include_true_inv.
      destruct (should_include_file w p root_dir excl _) as [[|]|e]; simpl in Hb;
        [reflexivity| |discriminate].
      destruct (is_ignored_by_patterns p root_dir _); discriminate.
  - exists [], []. simpl. rewrite app_nil_r. repeat split; auto.
Qed.

Lemma blocks_only_for_included_files_witness :
  exists paths tail,
    out (final (create_context_file (Sample.tree "/proj" "T0" Sample.two_files Absent)
                  "/proj" "/tmp/context.txt" Argparse.default_exclude None))
    = header (Sample.tree "/proj" "T0" Sample.two_files Absent) "/proj"
      ++ flat_map (file_writes (Sample.tree "/proj" "T0" Sample.two_files Absent)) paths
      ++ tail /\
    List.Forall (fun p => p <> "/tmp/context.txt"%string) paths.
Proof.
  destruct (blocks_only_for_included_files
              (Sample.tree "/proj" "T0" Sample.two_files Absent)
              "/proj" "/tmp/context.txt" Argparse.default_exclude None ([], []))
    as (paths & tail & Hout & _ & Hall).
  - reflexivity.
  - reflexivity.
  - exists paths, tail. split; [exact Hout|].
    apply (List.Forall_impl _ (P := _) (fun p H => proj1 H) Hall).
Defined.

End FinishedRun.


(* ===================================================================== *)
(** ** The FILE line and the working directory *)
(* ===================================================================== *)

Section FileLine.

Lemma replace_from_skip (old new a s : string) :
  PyStr.replace_from old new (a +:+ s) (String.length a)
  = PyStr.replace_from old new s 0.
Proof.
  induction a as [|c a IH]; [reflexivity|]. exact IH.
Qed.

Lemma replace_from_absent (old new s : string) :
  PyStr.contains old s = false -> PyStr.replace_from old new s 0 = s.
Proof.
  induction s as [|c s IH]; [reflexivity|].
  cbn [PyStr.contains PyStr.replace_from]. intros H.
  apply orb_false_iff in H as [Hpre Hrest].
  rewrite Hpre, (IH Hrest). reflexivity.
Qed.

Lemma replace_nonempty (s old new : string) :
  old <> ""%string -> PyStr.replace s old new = PyStr.replace_from old new s 0.
Proof. destruct old; [congruence|reflexivity]. Qed.

Lemma replace_leading (old rest : string) :
  old <> ""%string ->
  PyStr.contains old rest = false ->
  PyStr.replace (old +:+ rest) old "" = rest.
Proof.
  intros Hne Habs. rewrite replace_nonempty by exact Hne.
  destruct old as [|x o]; [congruence|].
  change (String x o +:+ rest) with (String x (o +:+ rest)).
  cbn [PyStr.replace_from].
  pose proof (startswith_app (String x o) rest) as Hpre.
  unfold PyStr.startswith in Hpre.
  change (String x o +:+ rest) with (String x (o +:+ rest)) in Hpre.
  rewrite Hpre.
  change (String.length (String x o) - 1) with (String.length o - 0).
  rewrite Nat.sub_0_r, replace_from_skip, (replace_from_absent _ _ _ Habs).
  reflexivity.
Qed.

Lemma slash_app_nonempty (c : string) : c +:+ "/" <> ""%string.
Proof. destruct c; discriminate. Qed.

(** X13: run from the root itself, the FILE line of a file is its path below the
    root, as long as the root path followed by a slash does not occur again
    inside that path. *)
Theorem file_line_is_root_relative_from_root (w : world) (root_dir rel : string)
    (stats : stat_result) :
  cwd w = root_dir ->
  root_dir <> "/"%string ->
  PyStr.contains (root_dir +:+ "/") rel = false ->
  stat_info w (root_dir +:+ "/" +:+ rel) = Returns stats ->
  exists info,
    get_file_info w (root_dir +:+ "/" +:+ rel) = Returns info /\
    relative_path info = rel /\
    PyStr.relative_to (root_dir +:+ "/" +:+ rel) root_dir = Some rel /\
    In ("FILE: " +:+ rel +:+ nl) (metadata_block info).
Proof.
  intros Hcwd Hroot Habs Hstat. unfold get_file_info. rewrite Hstat, Hcwd.
  eexists. split; [reflexivity|]. cbn [relative_path].
  assert (Hrel : PyStr.replace (root_dir +:+ "/" +:+ rel) (root_dir +:+ "/") "" = rel).
  { rewrite (string_app_assoc root_dir "/" rel).
    apply replace_leading; [apply slash_app_nonempty|exact Habs]. }
  split; [exact Hrel|]. split; [apply relative_to_join, Hroot|].
  unfold metadata_block. cbn [relative_path]. rewrite Hrel.
  right. left. reflexivity.
Qed.

Lemma file_line_is_root_relative_from_root_witness :
  exists info,
    get_file_info (Sample.tree "/proj" "T0" Sample.two_files Absent) "/proj/a.py"
    = Returns info /\
    relative_path info = "a.py"%string.
Proof.
  destruct (file_line_is_root_relative_from_root
              (Sample.tree "/proj" "T0" Sample.two_files Absent) "/proj" "a.py"
              {| st_size := 8; st_mtime := "2024-05-01T12:00:00" |})
    as (info & Hinfo & Hrel & _).
  - reflexivity.
  - discriminate.
  - reflexivity.
  - reflexivity.
  - exists info. split; [exact Hinfo|exact Hrel].
Defined.

(** X14: when the working directory followed by a slash does not occur in the
    path of a file -- the scanned root lies outside the working directory --
    the FILE line shows the full path unchanged. *)
Theorem file_line_is_full_path_outside_cwd (w : world) (p : string)
    (info : file_info) :
  PyStr.contains (cwd w +:+ "/") p = false ->
  get_file_info w p = Returns info ->
  relative_path info = p /\
  In ("FILE: " +:+ p +:+ nl) (metadata_block info).
Proof.
  intros Habs Hinfo. unfold get_file_info in Hinfo.
  destruct (stat_info w p) as [stats|msg]; [|discriminate].
  injection Hinfo as <-. cbn [relative_path].
  assert (Hrel : PyStr.replace p (cwd w +:+ "/") "" = p).
  { rewrite replace_nonempty by apply slash_app_nonempty.
    apply replace_from_absent, Habs. }
  split; [exact Hrel|].
  unfold metadata_block. cbn [relative_path]. rewrite Hrel.
  right. left. reflexivity.
Qed.

Lemma file_line_is_full_path_outside_cwd_witness :
  relative_path
    {| path := "/srv/proj/a.py"; relative_path := "/srv/proj/a.py"; size_bytes := 8;
       last_modified := "2024-05-01T12:00:00"; type := "code";
       extension := ".py"; filename := "a.py" |}
  = "/srv/proj/a.py"%string.
Proof.
  apply (file_line_is_full_path_outside_cwd
           (Sample.tree "/home/user" "T0" [("/srv/proj/a.py", "print(1)")]%string Absent)
           "/srv/proj/a.py").
  - reflexivity.
  - vm_compute. reflexivity.
Defined.

End FileLine.


(* ===================================================================== *)
(** ** Exclude patterns: plain text, order, patterns that do not compile *)
(* ===================================================================== *)

Section ExcludePatterns.

Import Re.

Lemma literal_char_inv (c : ascii) :
  literal_char c = true ->
  Ascii.eqb c "("%char = false /\ Ascii.eqb c ")"%char = false /\
  Ascii.eqb c "|"%char = false /\ Ascii.eqb c "\"%char = false /\
  Ascii.eqb c "."%char = false /\ Ascii.eqb c "^"%char = false /\
  Ascii.eqb c "$"%char = false /\ Ascii.eqb c "*"%char = false /\
  Ascii.eqb c "+"%char = false /\ Ascii.eqb c "?"%char = false /\
  Ascii.eqb c "["%char = false /\ Ascii.eqb c "{"%char = false.
Proof.
  unfold literal_char. rewrite negb_true_iff. cbn [existsb].
  rewrite !orb_false_iff. tauto.
Qed.

Lemma parse_atom_literal (c : ascii) (l : list ascii) (n : nat) :
  literal_char c = true -> parse_atom (S n) (c :: l) = Got (Chr c, l).
Proof.
  intros Hc.
  destruct (literal_char_inv c Hc)
    as (H1 & H2 & H3 & H4 & H5 & H6 & H7 & H8 & H9 & H10 & H11 & H12).
  cbn [parse_atom]. unfold is_postfix.
  rewrite H1, H4, H5, H6, H7, H8, H9, H10, H11, H12. reflexivity.
Qed.

Lemma postfix_literal (a : regex) (l : list ascii) :
  List.Forall (fun c => literal_char c = true) l -> postfix a l = Got (a, l).
Proof.
  intros Hl. destruct Hl as [|q l Hq _]; [reflexivity|].
  destruct (literal_char_inv q Hq)
    as (H1 & H2 & H3 & H4 & H5 & H6 & H7 & H8 & H9 & H10 & H11 & H12).
  unfold postfix, is_postfix. rewrite H8, H9, H10, H12. reflexivity.
Qed.

Lemma parse_seq_cons (n : nat) (c : ascii) (l : list ascii) :
  parse_seq (S n) (c :: l)
  = if Ascii.eqb c "|"%char || Ascii.eqb c ")"%char then Got (Eps, c :: l)
    else match parse_atom n (c :: l) with
         | Got (a, s1) =>
             match postfix a s1 with
             | Got (q, s2) =>
                 match parse_seq n s2 with
                 | Got (r, s3) => Got (Seq q r, s3)
                 | Malformed => Malformed
                 | Outside => Outside
                 end
             | Malformed => Malformed
             | Outside => Outside
             end
         | Malformed => Malformed
         | Outside => Outside
         end.
Proof. reflexivity. Qed.

Lemma parse_seq_literal (l : list ascii) :
  List.Forall (fun c => literal_char c = true) l ->
  forall n, length l < n -> parse_seq n l = Got (seq_of l, []).
Proof.
  induction 1 as [|c l Hc Hl IH]; intros n Hn.
  - destruct n; [lia|reflexivity].
  - destruct n as [|[|n]]; simpl in Hn; try lia.
    destruct (literal_char_inv c Hc)
      as (H1 & H2 & H3 & H4 & H5 & H6 & H7 & H8 & H9 & H10 & H11 & H12).
    rewrite parse_seq_cons, H2, H3. cbn [orb].
    rewrite (parse_atom_literal c l n Hc), (postfix_literal _ l Hl).
    rewrite (IH (S n)) by lia. reflexivity.
Qed.

Lemma compile_literal (pattern : string) :
  literal pattern -> compile pattern = Got (seq_of (list_ascii_of_string pattern)).
Proof.
  intros Hlit. unfold compile.
  replace (4 * length (list_ascii_of_string pattern) + 4)
    with (S (4 * length (list_ascii_of_string pattern) + 3)) by lia.
  cbn [parse_alt].
  rewrite (parse_seq_literal _ Hlit) by lia. reflexivity.
Qed.

Lemma rmatch_seq_of (pattern : string) :
  forall (s : string) (b : bool),
    rmatch (seq_of (list_ascii_of_string pattern)) b (list_ascii_of_string s) accept
    = String.prefix pattern s.
Proof.
  induction pattern as [|c pattern IH]; intros s b.
  - destruct s; reflexivity.
  - destruct s as [|x s]; [reflexivity|].
    cbn [list_ascii_of_string seq_of fold_right rmatch String.prefix].
    destruct (ascii_dec c x) as [->|Hne].
    + rewrite Ascii.eqb_refl. apply IH.
    + apply not_eq_sym, Ascii.eqb_neq in Hne. rewrite Hne. reflexivity.
Qed.

Lemma search_from_seq_of (pattern : string) :
  forall (s : string) (b : bool),
    search_from (seq_of (list_ascii_of_string pattern)) b (list_ascii_of_string s)
    = PyStr.contains pattern s.
Proof.
  induction s as [|x s IH]; intros b.
  - pose proof (rmatch_seq_of pattern "" b) as H.
    cbn [list_ascii_of_string search_from PyStr.contains] in *.
    rewrite H. reflexivity.
  - pose proof (rmatch_seq_of pattern (String x s) b) as H.
    cbn [list_ascii_of_string search_from PyStr.contains] in *.
    rewrite H, (IH false). reflexivity.
Qed.

Lemma search_literal (w : world) (pattern subject : string) :
  literal pattern -> re_search w pattern subject = Ok (PyStr.contains pattern subject).
Proof.
  intros Hlit. rewrite (re_search_got w pattern _ subject (compile_literal pattern Hlit)).
  unfold found. rewrite search_from_seq_of. reflexivity.
Qed.

(** X15: an exclude pattern of plain text is a substring test on the full path:
    with such a pattern among exclude patterns that all compile, a file is
    rejected as soon as the text occurs anywhere in its path, inside a
    longer name or in a directory above the root. *)
Theorem literal_exclude_is_substring_test (w : world) (p root_dir : string)
    (excl ign : list string) (pattern : string) :
  literal pattern ->
  In pattern excl ->
  Forall (compiles w) excl ->
  PyStr.contains pattern p = true ->
  re_search w pattern p = Ok true /\
  should_include_file w p root_dir excl ign = Ok false.
Proof.
  intros Hlit Hin Hall Hsub.
  assert (Hs : re_search w pattern p = Ok true)
    by (rewrite (search_literal w pattern p Hlit), Hsub; reflexivity).
  split; [exact Hs|].
  apply should_include_excluded.
  apply (search_any_in w excl pattern p Hall Hin Hs).
Qed.

Lemma literal_exclude_is_substring_test_witness :
  re_search
    (Sample.tree "/home/me/proj" "T0"
       [("/home/me/proj/distance/metric.py", "x = 1")]%string Absent)
    "dist" "/home/me/proj/distance/metric.py" = Ok true /\
  should_include_file
    (Sample.tree "/home/me/proj" "T0"
       [("/home/me/proj/distance/metric.py", "x = 1")]%string Absent)
    "/home/me/proj/distance/metric.py" "/home/me/proj" Argparse.default_exclude []
  = Ok false.
Proof.
  apply literal_exclude_is_substring_test.
  - unfold literal. repeat constructor.
  - vm_compute. tauto.
  - apply fragment_list_compiles. reflexivity.
  - reflexivity.
Defined.

Lemma search_any_hits (w : world) (ps : list string) (s : string) :
  Forall (compiles w) ps -> search_any w ps s = Ok (existsb (hit w s) ps).
Proof.
  induction 1 as [|p ps [test Hp] _ IH]; [reflexivity|].
  cbn [search_any existsb]. unfold hit at 1, re_search. rewrite Hp. simpl.
  destruct (test s); [reflexivity|exact IH].
Qed.

(** X16: the order of the exclude patterns does not change what the filter says,
    as long as the interpreter compiles every one of them. *)
Theorem exclude_order_is_irrelevant (w : world) (p root_dir : string)
    (excl excl' ign : list string) :
  Forall (compiles w) excl ->
  excl ≡ₚ excl' ->
  should_include_file w p root_dir excl ign
  = should_include_file w p root_dir excl' ign.
Proof.
  intros Hall Hperm.
  assert (Hall' : Forall (compiles w) excl') by (rewrite <- Hperm; exact Hall).
  unfold should_include_file.
  rewrite (search_any_hits w excl p Hall), (search_any_hits w excl' p Hall').
  rewrite (existsb_perm (hit w p) excl excl' Hperm). reflexivity.
Qed.

Lemma exclude_order_is_irrelevant_witness :
  should_include_file (Sample.tree "/proj" "T0" Sample.two_files Absent)
    "/proj/a.py" "/proj" ["\.md$"; "\.py$"]%string []
  = should_include_file (Sample.tree "/proj" "T0" Sample.two_files Absent)
    "/proj/a.py" "/proj" ["\.py$"; "\.md$"]%string [].
Proof.
  apply exclude_order_is_irrelevant.
  - apply fragment_list_compiles. reflexivity.
  - apply perm_swap.
Defined.

(** X17: a pattern that the interpreter does not compile raises only when its
    turn comes: the filter rejects the file without an error when an earlier
    pattern matches, and raises the [re.error] of that pattern otherwise,
    before any other check. *)
Theorem bad_pattern_raises_only_when_reached (w : world) (p root_dir : string)
    (before after ign : list string) (bad : string) (e : exn) :
  re_compile w bad = Raise e ->
  Forall (compiles w) before ->
  should_include_file w p root_dir (before ++ bad :: after) ign
  = if existsb (hit w p) before then Ok false else Raise e.
Proof.
  intros Hbad Hall.
  assert (Hs : search_any w (before ++ bad :: after) p
               = if existsb (hit w p) before then Ok true else Raise e).
  { induction Hall as [|q qs [test Hq] _ IH].
    - cbn [app search_any existsb]. unfold re_search. rewrite Hbad. reflexivity.
    - cbn [app search_any existsb]. unfold hit at 1, re_search. rewrite Hq. simpl.
      destruct (test p); [reflexivity|exact IH]. }
  unfold should_include_file. rewrite Hs.
  destruct (existsb (hit w p) before); reflexivity.
Qed.

Lemma bad_pattern_raises_only_when_reached_witness :
  should_include_file (Sample.tree "/proj" "T0" Sample.two_files Absent)
    "/proj/a.py" "/proj" ["\.py$"; "("]%string [] = Ok false /\
  should_include_file (Sample.tree "/proj" "T0" Sample.two_files Absent)
    "/proj/b.md" "/proj" ["\.py$"; "("]%string [] = Raise (ReError "(").
Proof.
  split.
  - apply (bad_pattern_raises_only_when_reached _ "/proj/a.py" "/proj"
             ["\.py$"%string] [] [] "(" (ReError "(")).
    + reflexivity.
    + apply fragment_list_compiles. reflexivity.
  - apply (bad_pattern_raises_only_when_reached _ "/proj/b.md" "/proj"
             ["\.py$"%string] [] [] "(" (ReError "(")).
    + reflexivity.
    + apply fragment_list_compiles. reflexivity.
Defined.

End ExcludePatterns.

(* ===================================================================== *)
(** ** What the pattern loader returns *)
(* ===================================================================== *)

Section LoadedPatterns.

Lemma lstrip_idempotent (s : string) : PyStr.lstrip (PyStr.lstrip s) = PyStr.lstrip s.
Proof.
  induction s as [|c s IH]; [reflexivity|].
  cbn [PyStr.lstrip]. destruct (PyStr.isspace c) eqn:Hc; [exact IH|].
  cbn [PyStr.lstrip]. rewrite Hc. reflexivity.
Qed.

Lemma lstrip_snoc (x : string) (c : ascii) :
  PyStr.lstrip (x +:+ String c EmptyString)
  = match PyStr.lstrip x with
    | EmptyString => PyStr.lstrip (String c EmptyString)
    | String a y => String a y +:+ String c EmptyString
    end.
Proof.
  induction x as [|a x IH]; [reflexivity|].
  change (String a x +:+ String c EmptyString)
    with (String a (x +:+ String c EmptyString)).
  cbn [PyStr.lstrip]. destruct (PyStr.isspace a); [exact IH|reflexivity].
Qed.

(** Stripping the end of a string that starts with a character that is not
    white space leaves that character in front. *)
Lemma lstrip_after_rstrip (c : ascii) (s : string) :
  PyStr.isspace c = false ->
  PyStr.lstrip (PyStr.rev (PyStr.lstrip (PyStr.rev (String c s))))
  = PyStr.rev (PyStr.lstrip (PyStr.rev (String c s))).
Proof.
  intros Hc. rewrite rev_cons, lstrip_snoc.
  destruct (PyStr.lstrip (PyStr.rev s)) as [|a y].
  - cbn [PyStr.lstrip]. rewrite Hc.
    change (PyStr.rev (String c EmptyString)) with (String c EmptyString).
    cbn [PyStr.lstrip]. rewrite Hc. reflexivity.
  - rewrite rev_snoc. cbn [PyStr.lstrip]. rewrite Hc. reflexivity.
Qed.

Lemma strip_idempotent (s : string) : PyStr.strip (PyStr.strip s) = PyStr.strip s.
Proof.
  unfold PyStr.strip.
  assert (Hhead : PyStr.lstrip (PyStr.rev (PyStr.lstrip (PyStr.rev (PyStr.lstrip s))))
                  = PyStr.rev (PyStr.lstrip (PyStr.rev (PyStr.lstrip s)))).
  { assert (Hclean : PyStr.lstrip s = EmptyString \/
                     exists c t, PyStr.lstrip s = String c t /\ PyStr.isspace c = false).
    { induction s as [|c s IH]; [left; reflexivity|].
      cbn [PyStr.lstrip]. destruct (PyStr.isspace c) eqn:Hc; [exact IH|].
      right. eauto. }
    destruct Hclean as [-> | (c & t & -> & Hc)]; [reflexivity|].
    apply lstrip_after_rstrip, Hc. }
  rewrite Hhead, rev_involutive, lstrip_idempotent. reflexivity.
Qed.

(** X18: every pattern the loader returns is a line of the ignore file with the
    white space at both ends removed: it is not empty, it is not a comment,
    and it has no white space left at either end. *)
Theorem loaded_patterns_are_stripped_lines (w : world) (root_dir pattern : string)
    (loaded : list string * list string) :
  load_context_ignore w root_dir = Ok loaded ->
  In pattern loaded.1 ->
  pattern <> ""%string /\
  PyStr.startswith pattern "#" = false /\
  PyStr.strip pattern = pattern /\
  exists ls failure line,
    ignore_file w (joinpath root_dir ".context-ignore") = Lines ls failure /\
    In line ls /\ pattern = PyStr.strip line.
Proof.
  unfold load_context_ignore.
  destruct (ignore_file w (joinpath root_dir ".context-ignore"))
    as [|msg|msg|ls failure]; intros [= <-]; cbn [fst]; try (intros []).
  rewrite (read_patterns_app ls []). cbn [app]. unfold patterns_of_lines.
  intros Hin. apply List.filter_In in Hin as [Hmap Hkeep].
  apply List.in_map_iff in Hmap as (line & <- & Hline).
  apply andb_true_iff in Hkeep as [Hne Hcomment].
  apply negb_true_iff in Hcomment.
  split; [intros Heq; rewrite Heq in Hne; discriminate|].
  split; [exact Hcomment|]. split; [apply strip_idempotent|].
  exists ls, failure, line. auto.
Qed.

Lemma loaded_patterns_are_stripped_lines_witness :
  PyStr.strip "build/" = "build/"%string /\
  load_context_ignore
    (Sample.tree "/proj" "T0" []
       (Lines ["# caches" +:+ nl; nl; "   build/  " +:+ nl] None)) "/proj"
  = Ok (["build/"%string], ["Found .context-ignore file at /proj/.context-ignore"%string]).
Proof.
  split; [|reflexivity].
  apply (loaded_patterns_are_stripped_lines
           (Sample.tree "/proj" "T0" []
              (Lines ["# caches" +:+ nl; nl; "   build/  " +:+ nl] None)) "/proj"
           "build/"
           (["build/"%string],
            ["Found .context-ignore file at /proj/.context-ignore"%string])).
  - reflexivity.
  - left. reflexivity.
Defined.

End LoadedPatterns.


(* ===================================================================== *)
(** ** The include filter, unreadable files, anchored directory patterns *)
(* ===================================================================== *)

Section MoreEdges.

Local Opaque metadata_block.

(** X19: with include patterns that the interpreter all compiles, the
    candidates are the files that at least one of the patterns matches, in
    the order of enumeration; an empty include list filters nothing out. *)
Theorem include_filter_keeps_matching_files (w : world) (incl all_files : list string) :
  Forall (compiles w) incl ->
  candidates w (Some incl) all_files
  = Ok (match incl with
        | [] => all_files
        | _ :: _ => List.filter (fun p => existsb (hit w p) incl) all_files
        end).
Proof.
  intros Hall. destruct incl as [|q ps]; [reflexivity|].
  cbn [candidates].
  rewrite (filter_included_ok w (q :: ps) all_files (raises_compiles w _ _ Hall)).
  f_equal. apply List.filter_ext. intros p.
  unfold matches. rewrite (search_any_hits w _ p Hall).
  destruct (existsb (hit w p) (q :: ps)); reflexivity.
Qed.

Lemma include_filter_keeps_matching_files_witness :
  candidates (Sample.tree "/proj" "T0" [] Absent) (Some ["\.md$"; "\.rst$"]%string)
    ["/proj/b.md"; "/proj/a.py"; "/proj/c.rst"]%string
  = Ok ["/proj/b.md"; "/proj/c.rst"]%string.
Proof.
  rewrite include_filter_keeps_matching_files.
  - reflexivity.
  - apply fragment_list_compiles. reflexivity.
Defined.

(** X20: an included file whose content cannot be read leaves its metadata
    block, without content, in the output; it is counted as skipped and the
    error is printed. *)
Theorem unreadable_file_leaves_its_metadata (w : world)
    (root_dir output_file : string) (excl ign : list string)
    (st : run_state) (p : string) (info : file_info) (msg : string) :
  p <> output_file ->
  should_include_file w p root_dir excl ign = Ok true ->
  get_file_info w p = Returns info ->
  read_text w p = Fails msg ->
  exists st',
    process_file w root_dir output_file excl ign st p = Ok st' /\
    out st' = out st ++ metadata_block info /\
    printed st' = printed st ++ ["Error processing file " +:+ p +:+ ": " +:+ msg] /\
    skipped_files st' = (skipped_files st + 1)%N /\
    processed_files st' = processed_files st /\
    total_size st' = total_size st.
Proof.
  intros Hne Hinc Hinfo Hread. apply String.eqb_neq in Hne.
  unfold process_file. rewrite Hne, Hinc. simpl.
  unfold emit_file. rewrite Hinfo, Hread.
  eexists. split; [reflexivity|].
  repeat split.
Qed.

Lemma unreadable_file_leaves_its_metadata_witness :
  exists info st',
    get_file_info
      (Sample.unreadable (Sample.tree "/proj" "T0" Sample.two_files Absent) "/proj/a.py")
      "/proj/a.py" = Returns info /\
    process_file
      (Sample.unreadable (Sample.tree "/proj" "T0" Sample.two_files Absent) "/proj/a.py")
      "/proj" "/tmp/context.txt" Argparse.default_exclude [] (initial_state [])
      "/proj/a.py" = Ok st' /\
    out st' = metadata_block info /\
    printed st' = ["Error processing file /proj/a.py: [Errno 5] Input/output error"%string].
Proof.
  destruct (unreadable_file_leaves_its_metadata
              (Sample.unreadable (Sample.tree "/proj" "T0" Sample.two_files Absent)
                 "/proj/a.py")
              "/proj" "/tmp/context.txt" Argparse.default_exclude []
              (initial_state []) "/proj/a.py"
              {| path := "/proj/a.py"; relative_path := "a.py"; size_bytes := 8;
                 last_modified := "2024-05-01T12:00:00"; type := "code";
                 extension := ".py"; filename := "a.py" |}
              "[Errno 5] Input/output error")
    as (st' & Hrun & Hout & Hprint & _).
  - discriminate.
  - vm_compute. reflexivity.
  - vm_compute. reflexivity.
  - reflexivity.
  - eexists _, st'. split; [vm_compute; reflexivity|].
    split; [exact Hrun|]. split; [exact Hout|exact Hprint].
Defined.

(** X21: a directory pattern is anchored at the root: alone, [d/] ignores the
    path [d] itself and the paths that start with [d/], and nothing else --
    a directory of the same name deeper in the tree is not ignored. *)
Theorem directory_pattern_is_anchored (p root_dir d : string) :
  is_ignored_by_patterns p root_dir [d +:+ "/"] = true <->
  rel_path_of p root_dir = d \/
  PyStr.startswith (rel_path_of p root_dir) (d +:+ "/") = true.
Proof.
  unfold is_ignored_by_patterns. fold (rel_path_of p root_dir).
  cbn [matches_any_pattern]. rewrite endswith_slash_app, drop_last_snoc.
  destruct (String.eqb_spec (rel_path_of p root_dir) d) as [Heq|Hne].
  - simpl. tauto.
  - simpl. destruct (PyStr.startswith (rel_path_of p root_dir) (d +:+ "/")).
    + tauto.
    + split; [discriminate|]. intros [Heq|Hfalse]; [contradiction|discriminate].
Qed.

End MoreEdges.
